(** * Artistic Studio: the Gemini image adapter and its call site

    A shallow embedding of [services/geminiService.ts] (the prompt catalog
    and the two request adapters [transformToArtisticStyle] and [swapOutfit])
    and of the component of [App.tsx] (the table of styles, [handleTransform]
    and the other handlers, and what the page shows), followed by the
    properties of the adapter's contract and of the component around it.

    Conventions of the embedding:
    - a JavaScript string is a Rocq [string]; each character is one code unit
      in the range 0..255;
    - an optional property ([x?: T]) or a value that may be [undefined] /
      [null] is an [option];
    - an [async] function is a program of the effect language [Prog]: awaiting
      the remote call, writing to the console, reading and writing the module
      bindings and calling React state setters are its operations; it
      completes by returning a value or by throwing. *)

From Stdlib Require Import String Ascii List Bool Arith Lia.
From stdpp Require Import base option list strings gmap.

Import ListNotations.
Local Open Scope string_scope.
Local Open Scope list_scope.

(* ===================================================================== *)
(** ** JavaScript string primitives used by the source *)
(* ===================================================================== *)

Module Js.

(** Conversion performed by a template literal [`${v}`]: an absent value
    prints as the text [undefined]. *)
Definition to_template (v : option string) : string :=
  match v with
  | Some s => s
  | None => "undefined"
  end.

(** [ToBoolean] on a string: only the empty string is falsy. *)
Definition truthy (s : string) : bool :=
  match s with
  | EmptyString => false
  | String _ _ => true
  end.

(** [ToBoolean] on [string | null | undefined]. *)
Definition truthy_opt (v : option string) : bool :=
  match v with
  | Some s => truthy s
  | None => false
  end.

(** [a || b] on strings that may be absent. *)
Definition or_else (v : option string) (d : string) : string :=
  if truthy_opt v then to_template v else d.

(** [String.prototype.startsWith]. *)
Fixpoint startsWith (p s : string) : bool :=
  match p, s with
  | EmptyString, _ => true
  | String _ _, EmptyString => false
  | String a p', String b s' => if Ascii.eqb a b then startsWith p' s' else false
  end.

(** [String.prototype.includes]. *)
Fixpoint includes (needle hay : string) : bool :=
  if startsWith needle hay then true
  else match hay with
       | EmptyString => false
       | String _ hay' => includes needle hay'
       end.

(** White space and line terminators of ECMAScript that fit in one code
    unit below 256: TAB, LF, VT, FF, CR, SP and NBSP. *)
Definition isWhiteSpace (c : ascii) : bool :=
  let n := nat_of_ascii c in
  Nat.eqb n 9 || Nat.eqb n 10 || Nat.eqb n 11 || Nat.eqb n 12
  || Nat.eqb n 13 || Nat.eqb n 32 || Nat.eqb n 160.

(** Characters that [.] of a regular expression does not match. *)
Definition isLineTerminator (c : ascii) : bool :=
  let n := nat_of_ascii c in Nat.eqb n 10 || Nat.eqb n 13.

Fixpoint trimStart (s : string) : string :=
  match s with
  | EmptyString => EmptyString
  | String c s' => if isWhiteSpace c then trimStart s' else s
  end.

Fixpoint trimEnd (s : string) : string :=
  match s with
  | EmptyString => EmptyString
  | String c s' =>
      let t := trimEnd s' in
      if isWhiteSpace c && negb (truthy t) then EmptyString else String c t
  end.

(** [String.prototype.trim]. *)
Definition trim (s : string) : string := trimEnd (trimStart s).

(** [s.split(sep)] for a separator of one character: the pieces between
    the separators, at least one piece. *)
Fixpoint split (sep : ascii) (s : string) : list string :=
  match s with
  | EmptyString => [EmptyString]
  | String c s' =>
      if Ascii.eqb c sep then EmptyString :: split sep s'
      else match split sep s' with
           | [] => [String c EmptyString]
           | piece :: rest => String c piece :: rest
           end
  end.

(** The tail [(.*?);] of the pattern, tried at the start of [s]: the lazy
    group stops at the first [;] and cannot cross a line terminator. *)
Fixpoint lazyUntilSemicolon (s : string) : option string :=
  match s with
  | EmptyString => None
  | String c s' =>
      if Ascii.eqb c ";" then Some EmptyString
      else if isLineTerminator c then None
      else option_map (String c) (lazyUntilSemicolon s')
  end.

(** [s.match(/:(.*?);/)?.[1]]: group 1 of the leftmost match, if any. *)
Fixpoint matchMime (s : string) : option string :=
  match s with
  | EmptyString => None
  | String c s' =>
      if Ascii.eqb c ":" then
        match lazyUntilSemicolon s' with
        | Some g => Some g
        | None => matchMime s'
        end
      else matchMime s'
  end.

End Js.

(* ===================================================================== *)
(** ** The types of the [@google/genai] SDK that the adapter touches *)
(* ===================================================================== *)

(** [Blob]: both properties are optional in the SDK. *)
Record Blob := mkBlob {
  data : option string;
  mimeType : option string
}.

(** [Part]: of its optional properties the adapter writes and reads
    [inlineData] and writes [text]. *)
Record Part := mkPart {
  inlineData : option Blob;
  text : option string
}.

Record Content := mkContent {
  parts : option (list Part)
}.

Record Candidate := mkCandidate {
  content : option Content
}.

(** [GenerateContentResponse]. *)
Record GenerateContentResponse := mkResponse {
  candidates : option (list Candidate)
}.

(** The argument of [ai.models.generateContent]. *)
Record GenerateContentParameters := mkRequest {
  model : string;
  contents : Content
}.

(** The client built by [new GoogleGenAI({ apiKey })]. *)
Record GoogleGenAI := mkClient {
  apiKey : option string
}.

(* ===================================================================== *)
(** ** Values of the application *)
(* ===================================================================== *)

(** [ArtisticStyle], a union of six string literals: the closed set of
    style identifiers. *)
Inductive ArtisticStyle :=
| watercolor | oil | charcoal | cyberpunk | pencil | popart.

(** The string each member of the union is at run time. *)
Definition style_key (style : ArtisticStyle) : string :=
  match style with
  | watercolor => "watercolor"
  | oil => "oil"
  | charcoal => "charcoal"
  | cyberpunk => "cyberpunk"
  | pencil => "pencil"
  | popart => "popart"
  end.

(** The members of the union, in the order of the declaration. *)
Definition all_styles : list ArtisticStyle :=
  [watercolor; oil; charcoal; cyberpunk; pencil; popart].

(** The [mode] state of [App]: ['style' | 'outfit']. *)
Inductive Mode := mode_style | mode_outfit.

(** The [useState] cells of [App]. *)
Record AppState := mkAppState {
  originalImage : option string;
  transformedImage : option string;
  selectedStyle : ArtisticStyle;
  outfitDescription : string;
  mode : Mode;
  isProcessing : bool;
  error : option string
}.

(** The state setters that [handleTransform] calls. *)
Inductive Setter :=
| setTransformedImage (v : option string)
| setIsProcessing (v : bool)
| setError (v : option string).

Definition apply_setter (u : Setter) (st : AppState) : AppState :=
  match u with
  | setTransformedImage v =>
      mkAppState (originalImage st) v (selectedStyle st)
                 (outfitDescription st) (mode st) (isProcessing st) (error st)
  | setIsProcessing v =>
      mkAppState (originalImage st) (transformedImage st) (selectedStyle st)
                 (outfitDescription st) (mode st) v (error st)
  | setError v =>
      mkAppState (originalImage st) (transformedImage st) (selectedStyle st)
                 (outfitDescription st) (mode st) (isProcessing st) v
  end.

(** The module-level bindings of [geminiService.ts]: the client [ai] and the
    object [STYLE_PROMPTS], whose properties JavaScript could reassign. *)
Record ServiceModule := mkServiceModule {
  mod_ai : GoogleGenAI;
  mod_STYLE_PROMPTS : gmap string string
}.

(** Everything a call can read or write: the service module and the state
    cells of the component. *)
Record Store := mkStore {
  service : ServiceModule;
  ui : AppState
}.

(* ===================================================================== *)
(** ** The effect language of the asynchronous functions *)
(* ===================================================================== *)

Section Effects.

(** The values JavaScript can throw; the adapter never inspects them. *)
Context {Exn : Type}.

(** An argument of [console.error]. *)
Inductive ConsoleArg :=
| ArgText (s : string)
| ArgError (e : Exn).

(** What leaves the program: a request to the remote model endpoint, made
    through a client, or a line on the error console. *)
Inductive Event :=
| EvGenerateContent (client : GoogleGenAI) (req : GenerateContentParameters)
| EvConsoleError (args : list ConsoleArg).

(** How the promise of [generateContent] settles. *)
Inductive Outcome :=
| Fulfilled (response : GenerateContentResponse)
| Rejected (reason : Exn).

(** Programs: the operations carry their continuation. *)
Inductive Prog (A : Type) : Type :=
| Ret (a : A)
| Throw (e : Exn)
| GenerateContent (req : GenerateContentParameters) (k : Outcome -> Prog A)
| ConsoleError (args : list ConsoleArg) (k : Prog A)
| LookupStylePrompt (key : string) (k : option string -> Prog A)
| AssignStylePrompt (key value : string) (k : Prog A)
| SetState (u : Setter) (k : Prog A).

Arguments Ret {A} a.
Arguments Throw {A} e.
Arguments GenerateContent {A} req k.
Arguments ConsoleError {A} args k.
Arguments LookupStylePrompt {A} key k.
Arguments AssignStylePrompt {A} key value k.
Arguments SetState {A} u k.

Fixpoint bind {A B : Type} (p : Prog A) (f : A -> Prog B) : Prog B :=
  match p with
  | Ret a => f a
  | Throw e => Throw e
  | GenerateContent req k => GenerateContent req (fun o => bind (k o) f)
  | ConsoleError args k => ConsoleError args (bind k f)
  | LookupStylePrompt key k => LookupStylePrompt key (fun v => bind (k v) f)
  | AssignStylePrompt key value k => AssignStylePrompt key value (bind k f)
  | SetState u k => SetState u (bind k f)
  end.

(** [try { p } catch (error) { handler error }]. *)
Fixpoint try_catch {A : Type} (p : Prog A) (handler : Exn -> Prog A) : Prog A :=
  match p with
  | Ret a => Ret a
  | Throw e => handler e
  | GenerateContent req k =>
      GenerateContent req (fun o => try_catch (k o) handler)
  | ConsoleError args k => ConsoleError args (try_catch k handler)
  | LookupStylePrompt key k =>
      LookupStylePrompt key (fun v => try_catch (k v) handler)
  | AssignStylePrompt key value k =>
      AssignStylePrompt key value (try_catch k handler)
  | SetState u k => SetState u (try_catch k handler)
  end.

(** [try { p } finally { cleanup }], for a [cleanup] that returns nothing:
    it runs however [p] completes and leaves that completion in place
    unless it throws itself. *)
Fixpoint try_finally {A : Type} (p : Prog A) (cleanup : Prog unit) : Prog A :=
  match p with
  | Ret a => bind cleanup (fun _ => Ret a)
  | Throw e => bind cleanup (fun _ => Throw e)
  | GenerateContent req k =>
      GenerateContent req (fun o => try_finally (k o) cleanup)
  | ConsoleError args k => ConsoleError args (try_finally k cleanup)
  | LookupStylePrompt key k =>
      LookupStylePrompt key (fun v => try_finally (k v) cleanup)
  | AssignStylePrompt key value k =>
      AssignStylePrompt key value (try_finally k cleanup)
  | SetState u k => SetState u (try_finally k cleanup)
  end.

(** [await ai.models.generateContent(req)]: the response, or the rejection
    reason thrown at the [await]. *)
Definition await_generateContent (req : GenerateContentParameters)
  : Prog GenerateContentResponse :=
  GenerateContent req (fun o =>
    match o with
    | Fulfilled response => Ret response
    | Rejected reason => Throw reason
    end).

Definition console_error (args : list ConsoleArg) : Prog unit :=
  ConsoleError args (Ret tt).

Definition lookup_style_prompt (key : string) : Prog (option string) :=
  LookupStylePrompt key Ret.

Definition set_state (u : Setter) : Prog unit := SetState u (Ret tt).

(** How a call completes. *)
Inductive Completion (A : Type) : Type :=
| Returned (a : A)
| Thrown (e : Exn).

Arguments Returned {A} a.
Arguments Thrown {A} e.

(** The remote service: it settles each request, and may answer the same
    request differently depending on what was sent and logged before. *)
Definition Remote : Type :=
  list Event -> GenerateContentParameters -> Outcome.

Definition assign_prompt (key value : string) (m : ServiceModule)
  : ServiceModule :=
  mkServiceModule (mod_ai m) (<[key := value]> (mod_STYLE_PROMPTS m)).

(** Running a program against a remote service, from a history of events
    and a store: the extended history, the final store and the
    completion. *)
Fixpoint run {A : Type} (remote : Remote) (p : Prog A)
         (h : list Event) (s : Store)
  : list Event * Store * Completion A :=
  match p with
  | Ret a => (h, s, Returned a)
  | Throw e => (h, s, Thrown e)
  | GenerateContent req k =>
      run remote (k (remote h req))
          (h ++ [EvGenerateContent (mod_ai (service s)) req]) s
  | ConsoleError args k => run remote k (h ++ [EvConsoleError args]) s
  | LookupStylePrompt key k =>
      run remote (k (mod_STYLE_PROMPTS (service s) !! key)) h s
  | AssignStylePrompt key value k =>
      run remote k h (mkStore (assign_prompt key value (service s)) (ui s))
  | SetState u k =>
      run remote k h (mkStore (service s) (apply_setter u (ui s)))
  end.

Definition history_of {A : Type} (r : list Event * Store * Completion A)
  : list Event := fst (fst r).
Definition store_of {A : Type} (r : list Event * Store * Completion A)
  : Store := snd (fst r).
Definition completion_of {A : Type} (r : list Event * Store * Completion A)
  : Completion A := snd r.

(** The requests among the events, oldest first. *)
Fixpoint requests_of (h : list Event) : list GenerateContentParameters :=
  match h with
  | [] => []
  | EvGenerateContent _ req :: h' => req :: requests_of h'
  | EvConsoleError _ :: h' => requests_of h'
  end.

(** The console lines among the events, oldest first. *)
Fixpoint console_of (h : list Event) : list (list ConsoleArg) :=
  match h with
  | [] => []
  | EvGenerateContent _ _ :: h' => console_of h'
  | EvConsoleError args :: h' => args :: console_of h'
  end.

End Effects.

Arguments ConsoleArg : clear implicits.
Arguments Event : clear implicits.
Arguments Outcome : clear implicits.
Arguments Prog : clear implicits.
Arguments Completion : clear implicits.
Arguments Remote : clear implicits.
Arguments Ret {Exn A} a.
Arguments Throw {Exn A} e.
Arguments GenerateContent {Exn A} req k.
Arguments ConsoleError {Exn A} args k.
Arguments LookupStylePrompt {Exn A} key k.
Arguments AssignStylePrompt {Exn A} key value k.
Arguments SetState {Exn A} u k.
Arguments Returned {Exn A} a.
Arguments Thrown {Exn A} e.

Notation "'let!' x ':=' p 'in' q" := (bind p (fun x => q))
  (at level 10, x name, p at level 100, q at level 200).
Notation "'do!' p 'in' q" := (bind p (fun _ => q))
  (at level 10, p at level 100, q at level 200).

(* ===================================================================== *)
(** ** services/geminiService.ts *)
(* ===================================================================== *)

(** [const ai = new GoogleGenAI({ apiKey: process.env.GEMINI_API_KEY })]. *)
Definition ai (GEMINI_API_KEY : option string) : GoogleGenAI :=
  mkClient GEMINI_API_KEY.

(** [const STYLE_PROMPTS: Record<ArtisticStyle, string> = { ... }]. *)
Definition STYLE_PROMPTS : gmap string string :=
  list_to_map
    [ ("watercolor",
       "Transform this image into a vibrant watercolor splash effect sketch. The style should be artistic, with visible brush strokes, paint drips, and a beautiful blend of colors, while maintaining the core subject of the original photo.");
      ("oil",
       "Transform this image into a classic oil painting. Use thick, visible brush strokes, rich textures, and deep, vibrant colors. The final result should look like a masterpiece on canvas.");
      ("charcoal",
       "Transform this image into a rough charcoal sketch. Use black and white tones, expressive hand-drawn lines, and smudged shading to create a dramatic, artistic feel.");
      ("cyberpunk",
       "Transform this image into a neon cyberpunk style. Use high contrast, glowing edges, and a palette dominated by electric pink, blue, and purple. Add a futuristic, digital glitch aesthetic.");
      ("pencil",
       "Transform this image into a detailed pencil drawing. Use fine graphite lines, realistic shading, and cross-hatching to create a classic, hand-sketched look on paper.");
      ("popart",
       "Transform this image into a bold pop art style. Use vibrant, flat colors, thick outlines, and halftone dot patterns reminiscent of 1960s comic book art.") ].

(** The module as it stands once its top level has run. *)
Definition geminiService (GEMINI_API_KEY : option string) : ServiceModule :=
  mkServiceModule (ai GEMINI_API_KEY) STYLE_PROMPTS.

(** The Prompt Catalog lookup [STYLE_PROMPTS[style]] on the module as
    loaded. *)
Definition prompt_of (style : ArtisticStyle) : option string :=
  STYLE_PROMPTS !! style_key style.

(** The request literal of [transformToArtisticStyle], given the value read
    from [STYLE_PROMPTS[style]]. *)
Definition transformToArtisticStyle_request
    (base64Image : option string) (mimeType : string) (prompt : option string)
  : GenerateContentParameters :=
  {| model := "gemini-2.5-flash-image";
     contents :=
       {| parts := Some
            [ {| inlineData := Some {| data := base64Image;
                                       mimeType := Some mimeType |};
                 text := None |};
              {| inlineData := None;
                 text := prompt |} ] |} |}.

(** The [for ... of] loop of [transformToArtisticStyle] with the
    [return null] after it. *)
Fixpoint transformToArtisticStyle_scan (ps : list Part) : option string :=
  match ps with
  | [] => None
  | part :: rest =>
      match inlineData part with
      | Some blob =>
          Some ("data:" +:+ Js.to_template (mimeType blob) +:+ ";base64,"
                +:+ Js.to_template (data blob))
      | None => transformToArtisticStyle_scan rest
      end
  end.

(** The request literal of [swapOutfit]. *)
Definition swapOutfit_request
    (base64Image : option string) (mimeType : string)
    (outfitDescription : string)
  : GenerateContentParameters :=
  {| model := "gemini-2.5-flash-image";
     contents :=
       {| parts := Some
            [ {| inlineData := Some {| data := base64Image;
                                       mimeType := Some mimeType |};
                 text := None |};
              {| inlineData := None;
                 text := Some
                   ("Please swap the outfit of the person in this image with the following description: "
                    +:+ outfitDescription
                    +:+ ". Keep the person's identity, pose, and background as consistent as possible. Only change the clothing.") |} ] |} |}.

(** The [for ... of] loop of [swapOutfit] with the [return null] after it. *)
Fixpoint swapOutfit_scan (ps : list Part) : option string :=
  match ps with
  | [] => None
  | part :: rest =>
      match inlineData part with
      | Some blob =>
          Some ("data:" +:+ Js.to_template (mimeType blob) +:+ ";base64,"
                +:+ Js.to_template (data blob))
      | None => swapOutfit_scan rest
      end
  end.

Section Service.

Context {Exn : Type}.

(** [base64Image] is declared a [string]; arguments are not checked at run
    time and [handleTransform] passes the second piece of the data URL,
    which is [undefined] when the URL holds no comma, hence the optional
    string. The other two parameters always receive strings. *)
Definition transformToArtisticStyle
    (base64Image : option string) (mimeType : string) (style : ArtisticStyle)
  : Prog Exn (option string) :=
  try_catch
    (let! prompt := lookup_style_prompt (style_key style) in
     let! response :=
       await_generateContent
         (transformToArtisticStyle_request base64Image mimeType prompt) in
     Ret (transformToArtisticStyle_scan
            (default []
               (cs ← candidates response; c ← cs !! 0%nat;
                ct ← content c; parts ct))))
    (fun error =>
       do! console_error [ArgText "Error transforming image:"; ArgError error] in
       Throw error).

Definition swapOutfit
    (base64Image : option string) (mimeType : string)
    (outfitDescription : string)
  : Prog Exn (option string) :=
  try_catch
    (let! response :=
       await_generateContent
         (swapOutfit_request base64Image mimeType outfitDescription) in
     Ret (swapOutfit_scan
            (default []
               (cs ← candidates response; c ← cs !! 0%nat;
                ct ← content c; parts ct))))
    (fun error =>
       do! console_error [ArgText "Error swapping outfit:"; ArgError error] in
       Throw error).

(* =================================================================== *)
(** ** App.tsx: [handleTransform] *)
(* =================================================================== *)

(** The statements after the [if (mode === 'style') ... else ...] of
    [handleTransform]: [if (result) ... else ...]. *)
Definition handleTransform_show (st : AppState) (result : option string)
  : Prog Exn unit :=
  if Js.truthy_opt result then set_state (setTransformedImage result)
  else
    set_state
      (setError
         (Some ("Failed to generate the "
                +:+ match mode st with
                    | mode_style => style_key (selectedStyle st)
                    | mode_outfit => "outfit swap"
                    end
                +:+ ". Please try again."))).

(** [handleTransform], closed over the state [st] of the render it was
    created in. The [return] inside the [try] ends the block, and the
    [finally] clause still runs. *)
Definition handleTransform (st : AppState) : Prog Exn unit :=
  match originalImage st with
  | None => Ret tt
  | Some image =>
      if negb (Js.truthy image) then Ret tt
      else
        do! set_state (setIsProcessing true) in
        do! set_state (setError None) in
        try_finally
          (try_catch
             (let pieces := Js.split "," image in
              let mimeInfo := hd EmptyString pieces in
              let base64Data := pieces !! 1%nat in
              let mimeType := Js.or_else (Js.matchMime mimeInfo) "image/png" in
              match mode st with
              | mode_style =>
                  let! result :=
                    transformToArtisticStyle base64Data mimeType
                                             (selectedStyle st) in
                  handleTransform_show st result
              | mode_outfit =>
                  if negb (Js.truthy (Js.trim (outfitDescription st))) then
                    do! set_state
                          (setError
                             (Some "Please provide an outfit description.")) in
                    do! set_state (setIsProcessing false) in
                    Ret tt
                  else
                    let! result :=
                      swapOutfit base64Data mimeType (outfitDescription st) in
                    handleTransform_show st result
              end)
             (fun err =>
                do! set_state
                      (setError
                         (Some "An error occurred while processing the image. Please check your connection and try again.")) in
                console_error [ArgError err]))
          (set_state (setIsProcessing false))
  end.

End Service.

(* ===================================================================== *)
(** ** App.tsx: the table of styles, the other handlers and the view *)
(* ===================================================================== *)

(** The icons of [lucide-react] whose choice depends on the state. *)
Inductive Icon :=
| Sparkles | Palette | Pencil | Zap | PencilLine | LayoutGrid | Shirt.

(** An element of [STYLES]: [{ id, label, icon, description }]. *)
Record StyleEntry := mkStyleEntry {
  entry_id : ArtisticStyle;
  entry_label : string;
  entry_icon : Icon;
  entry_description : string
}.

(** [const STYLES = [ ... ]]. *)
Definition STYLES : list StyleEntry :=
  [ mkStyleEntry watercolor "Watercolor" Sparkles
                 "Soft splashes and vibrant drips";
    mkStyleEntry oil "Oil Painting" Palette
                 "Thick strokes and rich textures";
    mkStyleEntry charcoal "Charcoal" Pencil
                 "Rough, dramatic hand-drawn lines";
    mkStyleEntry cyberpunk "Cyberpunk" Zap
                 "Neon glows and futuristic vibes";
    mkStyleEntry pencil "Pencil" PencilLine
                 "Classic graphite sketch";
    mkStyleEntry popart "Pop Art" LayoutGrid
                 "Bold colors and comic patterns" ].

(** [a === b] on two styles: the comparison of their strings. *)
Definition style_eqb (a b : ArtisticStyle) : bool :=
  String.eqb (style_key a) (style_key b).

(** [STYLES.find(s => s.id === selectedStyle)]. *)
Definition STYLES_find (selected : ArtisticStyle) : option StyleEntry :=
  List.find (fun s => style_eqb (entry_id s) selected) STYLES.

(** The body of [reader.onload] in [onDrop], [result] being
    [reader.result]. *)
Definition onDrop_onload (result : string) (st : AppState) : AppState :=
  mkAppState (Some result) None (selectedStyle st) (outfitDescription st)
             (mode st) (isProcessing st) None.

(** [onDrop]: with no first file nothing happens; otherwise the file is
    read as a data URL and, once read, [reader.onload] runs. The state
    given is the one the load finds. *)
Definition onDrop {File : Type} (readAsDataURL : File -> string)
    (acceptedFiles : list File) (st : AppState) : AppState :=
  match acceptedFiles !! 0%nat with
  | None => st
  | Some file => onDrop_onload (readAsDataURL file) st
  end.

(** The anchor [handleDownload] creates and clicks. *)
Record DownloadLink := mkDownloadLink {
  href : string;
  download : string
}.

(** [handleDownload]: the link that is clicked, if any. *)
Definition handleDownload (st : AppState) : option DownloadLink :=
  match transformedImage st with
  | None => None
  | Some url =>
      if negb (Js.truthy url) then None
      else Some {| href := url; download := "watercolor-sketch.png" |}
  end.

(** [reset]. *)
Definition reset (st : AppState) : AppState :=
  mkAppState None None (selectedStyle st) (outfitDescription st)
             (mode st) (isProcessing st) None.

(** The [onClick] of the two mode buttons of the header:
    [setMode(m); setTransformedImage(null)]. *)
Definition click_mode (m : Mode) (st : AppState) : AppState :=
  mkAppState (originalImage st) None (selectedStyle st)
             (outfitDescription st) m (isProcessing st) (error st).

(** The [onClick] of a style button before an image is loaded:
    [setSelectedStyle(style.id)]. *)
Definition click_style_upload (style : ArtisticStyle) (st : AppState)
  : AppState :=
  mkAppState (originalImage st) (transformedImage st) style
             (outfitDescription st) (mode st) (isProcessing st) (error st).

(** The [onClick] of a style button beside a loaded image:
    [setSelectedStyle(style.id); setTransformedImage(null)]. *)
Definition click_style_editor (style : ArtisticStyle) (st : AppState)
  : AppState :=
  mkAppState (originalImage st) None style
             (outfitDescription st) (mode st) (isProcessing st) (error st).

(** The [onChange] of the description box before an image is loaded. *)
Definition change_description_upload (value : string) (st : AppState)
  : AppState :=
  mkAppState (originalImage st) (transformedImage st) (selectedStyle st)
             value (mode st) (isProcessing st) (error st).

(** The [onChange] of the description box beside a loaded image:
    [setOutfitDescription(e.target.value); setTransformedImage(null)]. *)
Definition change_description_editor (value : string) (st : AppState)
  : AppState :=
  mkAppState (originalImage st) None (selectedStyle st)
             value (mode st) (isProcessing st) (error st).

(** What the returned JSX shows, as far as it depends on the state; class
    names, layout, animation and the fixed texts of the page are left
    out. *)

(** The style buttons, each with whether it is the selected one, or the
    description box with its value. *)
Inductive Controls :=
| StyleGrid (cells : list (StyleEntry * bool))
| DescriptionBox (value : string).

(** The result area: the transformed image; the spinner with its caption;
    the error with the [Try again] button; or the invitation with its icon,
    its question and the button that starts the transformation. [Try again]
    and that button call [handleTransform]. *)
Inductive Panel :=
| PanelImage (src : string)
| PanelSpinner (caption : string)
| PanelError (message : string)
| PanelReady (icon : Icon) (question : string) (button : string).

(** The [main] element: the upload screen, or the editor with its
    controls, the original photo, the heading of the result, the result
    area and, when rendered, the pair of buttons [Download Masterpiece]
    (calling [handleDownload]) and [Regenerate] (calling [handleTransform]),
    given by whether [Regenerate] is disabled. *)
Inductive MainView :=
| UploadView (title : string) (controls : Controls)
| EditorView (controls : Controls) (original : string)
             (heading_icon : Icon) (heading : string)
             (panel : Panel) (actions : option bool).

(** The page: whether [Start Over] (calling [reset]) is in the header, and
    the main element. *)
Record Page := mkPage {
  startOver : bool;
  mainView : MainView
}.

(** The style grid or the description box, by [mode]. *)
Definition render_controls (st : AppState) : Controls :=
  match mode st with
  | mode_style =>
      StyleGrid
        (List.map (fun style => (style, style_eqb (selectedStyle st) (entry_id style)))
                  STYLES)
  | mode_outfit => DescriptionBox (outfitDescription st)
  end.

(** The conditional inside the result area. *)
Definition render_panel (st : AppState) : Panel :=
  if Js.truthy_opt (transformedImage st) then
    PanelImage (Js.to_template (transformedImage st))
  else if isProcessing st then
    PanelSpinner
      match mode st with
      | mode_style => "Creating your " +:+ style_key (selectedStyle st) +:+ " art..."
      | mode_outfit => "Swapping your outfit..."
      end
  else if Js.truthy_opt (error st) then
    PanelError (Js.to_template (error st))
  else
    match mode st with
    | mode_style =>
        PanelReady
          (default Sparkles (entry_icon <$> STYLES_find (selectedStyle st)))
          ("Ready to transform your photo into "
           +:+ style_key (selectedStyle st) +:+ "?")
          ("Apply "
           +:+ Js.to_template (entry_label <$> STYLES_find (selectedStyle st))
           +:+ " Effect")
    | mode_outfit =>
        PanelReady Shirt "Ready to swap your outfit?" "Swap Outfit"
    end.

(** The JSX that [App] returns. *)
Definition App_render (st : AppState) : Page :=
  {| startOver := Js.truthy_opt (originalImage st);
     mainView :=
       if negb (Js.truthy_opt (originalImage st)) then
         UploadView
           match mode st with
           | mode_style => "Turn your photos into art."
           | mode_outfit => "Swap your outfit instantly."
           end
           (render_controls st)
       else
         EditorView
           (render_controls st)
           (Js.to_template (originalImage st))
           match mode st with
           | mode_style =>
               default Sparkles (entry_icon <$> STYLES_find (selectedStyle st))
           | mode_outfit => Shirt
           end
           match mode st with
           | mode_style =>
               default EmptyString
                       (entry_label <$> STYLES_find (selectedStyle st))
               +:+ " Effect"
           | mode_outfit => "Outfit Swap"
           end
           (render_panel st)
           (if Js.truthy_opt (transformedImage st)
            then Some (isProcessing st) else None) |}.

(* ===================================================================== *)
(** ** Calls of the handlers, one after the other *)
(* ===================================================================== *)

Section Sessions.

Context {Exn File : Type}.

(** A call of one handler of the component. *)
Inductive Action :=
| Drop (acceptedFiles : list File)
| StartOver
| ClickMode (m : Mode)
| ClickStyleUpload (style : ArtisticStyle)
| ClickStyleEditor (style : ArtisticStyle)
| ChangeDescriptionUpload (value : string)
| ChangeDescriptionEditor (value : string)
| Transform.

Definition is_Transform (a : Action) : bool :=
  match a with
  | Transform => true
  | _ => false
  end.

(** The history and the store after one call. [handleTransform] is the one
    of the current render, and it runs to its end before the next call. *)
Definition perform (remote : Remote Exn) (readAsDataURL : File -> string)
    (a : Action) (w : list (Event Exn) * Store) : list (Event Exn) * Store :=
  let now := ui (snd w) in
  let put := fun st' => (fst w, mkStore (service (snd w)) st') in
  match a with
  | Drop acceptedFiles => put (onDrop readAsDataURL acceptedFiles now)
  | StartOver => put (reset now)
  | ClickMode m => put (click_mode m now)
  | ClickStyleUpload style => put (click_style_upload style now)
  | ClickStyleEditor style => put (click_style_editor style now)
  | ChangeDescriptionUpload value => put (change_description_upload value now)
  | ChangeDescriptionEditor value => put (change_description_editor value now)
  | Transform =>
      let r := run remote (handleTransform now) (fst w) (snd w) in
      (history_of r, store_of r)
  end.

(** The history and the store after the calls of a list, in order. *)
Definition session (remote : Remote Exn) (readAsDataURL : File -> string)
    (actions : list Action) (w : list (Event Exn) * Store)
  : list (Event Exn) * Store :=
  fold_left (fun w a => perform remote readAsDataURL a w) actions w.

End Sessions.

Arguments Action : clear implicits.

(* ===================================================================== *)
(** ** Vocabulary of the properties *)
(* ===================================================================== *)

(** The content parts of the first candidate of a response; none when the
    response has no candidate, or the candidate no content, or the content
    no list of parts. *)
Definition first_candidate_parts (response : GenerateContentResponse)
  : list Part :=
  match candidates response with
  | Some (c :: _) =>
      match content c with
      | Some ct => match parts ct with Some ps => ps | None => [] end
      | None => []
      end
  | _ => []
  end.

(** A part that carries no inline binary payload. *)
Definition no_inline (p : Part) : Prop := inlineData p = None.

(** The Prompt Catalog a store holds. *)
Definition catalog (s : Store) : gmap string string :=
  mod_STYLE_PROMPTS (service s).

(** The two fixed pieces of the instruction template of [swapOutfit]. *)
Definition outfit_template_head : string :=
  "Please swap the outfit of the person in this image with the following description: ".
Definition outfit_template_tail : string :=
  ". Keep the person's identity, pose, and background as consistent as possible. Only change the clothing.".

(* ===================================================================== *)
(** ** Fixtures *)
(* ===================================================================== *)

(** A response whose first candidate holds a text part, then a PNG, then a
    JPEG. *)
Definition fixture_text_then_images : GenerateContentResponse :=
  mkResponse (Some
    [ mkCandidate (Some (mkContent (Some
        [ mkPart None (Some "Here is your image.");
          mkPart (Some (mkBlob (Some "iVBORw0KGgo=") (Some "image/png"))) None;
          mkPart (Some (mkBlob (Some "/9j/4AAQ") (Some "image/jpeg"))) None ]))) ]).

(** A response whose only part is text. *)
Definition fixture_text_only : GenerateContentResponse :=
  mkResponse (Some
    [ mkCandidate (Some (mkContent (Some
        [ mkPart None (Some "I cannot edit this image.") ]))) ]).

(** A response without candidates. *)
Definition fixture_no_candidates : GenerateContentResponse := mkResponse None.

(** A service that fulfils every request with one response. *)
Definition remote_answering (response : GenerateContentResponse)
  : Remote string :=
  fun _ _ => Fulfilled response.

(** A service that rejects every request with one reason. *)
Definition remote_failing (reason : string) : Remote string :=
  fun _ _ => Rejected reason.

(** A service that rejects the first request and would fulfil a second. *)
Definition remote_failing_once (reason : string)
    (response : GenerateContentResponse) : Remote string :=
  fun h _ =>
    match requests_of h with
    | [] => Rejected reason
    | _ :: _ => Fulfilled response
    end.

Definition fixture_app : AppState :=
  mkAppState (Some "data:image/jpeg;base64,/9j/4AAQ") None oil "   "
             mode_outfit false None.

Definition fixture_store : Store :=
  mkStore (geminiService (Some "test-key")) fixture_app.

(* ===================================================================== *)
(** ** Vocabulary of the properties of the component *)
(* ===================================================================== *)

(** Whether the character [c] occurs in [s]. *)
Fixpoint occurs (c : ascii) (s : string) : bool :=
  match s with
  | EmptyString => false
  | String a s' => Ascii.eqb a c || occurs c s'
  end.

(** Whether a line terminator occurs in [s]. *)
Fixpoint has_line_terminator (s : string) : bool :=
  match s with
  | EmptyString => false
  | String a s' => Js.isLineTerminator a || has_line_terminator s'
  end.

(** The media type [handleTransform] reads off the data URL [image]. *)
Definition dataUrl_mimeType (image : string) : string :=
  Js.or_else (Js.matchMime (hd EmptyString (Js.split "," image))) "image/png".

(** The payload [handleTransform] reads off the data URL [image]. *)
Definition dataUrl_base64Data (image : string) : option string :=
  Js.split "," image !! 1%nat.

(** The request [handleTransform] makes for the state [st] of its render,
    the image [image] of that state and the store [s] it runs in. *)
Definition handleTransform_request (st : AppState) (image : string) (s : Store)
  : GenerateContentParameters :=
  match mode st with
  | mode_style =>
      transformToArtisticStyle_request
        (dataUrl_base64Data image) (dataUrl_mimeType image)
        (catalog s !! style_key (selectedStyle st))
  | mode_outfit =>
      swapOutfit_request
        (dataUrl_base64Data image) (dataUrl_mimeType image)
        (outfitDescription st)
  end.

(** The shape both adapters give their request: the model, the inline
    part and the text part. *)
Definition image_request (payload : option string) (media : string)
    (instruction : option string) : GenerateContentParameters :=
  {| model := "gemini-2.5-flash-image";
     contents :=
       {| parts := Some
            [ {| inlineData := Some {| data := payload; mimeType := Some media |};
                 text := None |};
              {| inlineData := None; text := instruction |} ] |} |}.

(** The instruction of the request [handleTransform] makes. *)
Definition handleTransform_instruction (st : AppState) (s : Store)
  : option string :=
  match mode st with
  | mode_style => catalog s !! style_key (selectedStyle st)
  | mode_outfit =>
      Some (outfit_template_head +:+ outfitDescription st
            +:+ outfit_template_tail)
  end.

(** Whether [handleTransform] reaches an adapter: an image is loaded and, in
    outfit mode, the trimmed description is not empty. *)
Definition submits (st : AppState) : bool :=
  Js.truthy_opt (originalImage st)
  && match mode st with
     | mode_style => true
     | mode_outfit => Js.truthy (Js.trim (outfitDescription st))
     end.

(** The first argument of the [console.error] of the adapter a mode
    uses. *)
Definition adapter_label (m : Mode) : string :=
  match m with
  | mode_style => "Error transforming image:"
  | mode_outfit => "Error swapping outfit:"
  end.

(** The message [handleTransform] sets when the adapter returned no
    image. *)
Definition failed_message (st : AppState) : string :=
  "Failed to generate the "
  +:+ match mode st with
      | mode_style => style_key (selectedStyle st)
      | mode_outfit => "outfit swap"
      end
  +:+ ". Please try again.".

(** The message [handleTransform] sets when the adapter threw. *)
Definition thrown_message : string :=
  "An error occurred while processing the image. Please check your connection and try again.".

(** State setters applied one after the other. *)
Definition after_setters (us : list Setter) (st : AppState) : AppState :=
  fold_left (fun acc u => apply_setter u acc) us st.

(** Whether the page shows an enabled control that calls
    [handleTransform]: [Try again], the button of the invitation, or
    [Regenerate] when it is not disabled. *)
Definition offers_transform (page : Page) : bool :=
  match mainView page with
  | UploadView _ _ => false
  | EditorView _ _ _ _ panel actions =>
      match panel with
      | PanelError _ | PanelReady _ _ _ => true
      | PanelImage _ | PanelSpinner _ => false
      end
      || match actions with
         | Some disabled => negb disabled
         | None => false
         end
  end.

(** The result area of a page, when it has one. *)
Definition panel_of (page : Page) : option Panel :=
  match mainView page with
  | UploadView _ _ => None
  | EditorView _ _ _ _ panel _ => Some panel
  end.

(** What holds of the store between two calls of a session: the service
    module is the one loaded, the processing flag is off, and a transformed
    image is held only beside an original image. *)
Definition at_rest (service0 : ServiceModule) (s : Store) : Prop :=
  service s = service0
  /\ isProcessing (ui s) = false
  /\ (Js.truthy_opt (originalImage (ui s)) = false ->
      transformedImage (ui s) = None).

(** A dropped file, for the fixtures: its media type and its bytes in
    base64. *)
Record FixtureFile := mkFixtureFile {
  file_type : string;
  file_base64 : string
}.

(** What [FileReader.readAsDataURL] produces for such a file. *)
Definition fixture_readAsDataURL (f : FixtureFile) : string :=
  "data:" +:+ file_type f +:+ ";base64," +:+ file_base64 f.

(** A response whose first candidate is text only and whose second holds
    an image. *)
Definition fixture_image_in_second_candidate : GenerateContentResponse :=
  mkResponse (Some
    [ mkCandidate (Some (mkContent (Some
        [ mkPart None (Some "I cannot edit this image.") ])));
      mkCandidate (Some (mkContent (Some
        [ mkPart (Some (mkBlob (Some "iVBORw0KGgo=") (Some "image/png")))
                 None ]))) ]).

(** A JPEG loaded, the oil style selected, an earlier result on display. *)
Definition fixture_style_app : AppState :=
  mkAppState (Some "data:image/jpeg;base64,/9j/4AAQ")
             (Some "data:image/png;base64,T0xE") oil EmptyString
             mode_style false None.

Definition fixture_style_store : Store :=
  mkStore (geminiService (Some "test-key")) fixture_style_app.

(** An object URL in place of a data URL: no comma in it. *)
Definition fixture_blob_app : AppState :=
  mkAppState (Some "blob:studio/0a1b") None pencil EmptyString
             mode_style false None.

(** A data URL that declares no media type. *)
Definition fixture_untyped_app : AppState :=
  mkAppState (Some "data:;base64,AAAA") None pencil "a red dress"
             mode_outfit false None.

(** A dropped WebP file, and a second file dropped with it. *)
Definition fixture_files : list FixtureFile :=
  [ mkFixtureFile "image/webp" "UklGRg=="; mkFixtureFile "image/gif" "R0lG" ].

(** The state of [App] at its first render. *)
Definition App_initial : AppState :=
  mkAppState None None watercolor EmptyString mode_style false None.

(* ===================================================================== *)
(** ** Lemmas on the string primitives *)
(* ===================================================================== *)

Lemma startsWith_refl_app (p rest : string) :
  Js.startsWith p (p +:+ rest) = true.
Proof.
  induction p as [|a p IH]; simpl.
  - reflexivity.
  - rewrite Ascii.eqb_refl. exact IH.
Qed.

Lemma includes_of_startsWith (needle hay : string) :
  Js.startsWith needle hay = true -> Js.includes needle hay = true.
Proof.
  intros H. destruct hay; simpl; rewrite H; reflexivity.
Qed.

Lemma includes_skip (needle : string) (c : ascii) (hay : string) :
  Js.includes needle hay = true -> Js.includes needle (String c hay) = true.
Proof.
  intros H. simpl.
  destruct (Js.startsWith needle (String c hay)); [reflexivity | exact H].
Qed.

Lemma includes_infix (pre needle post : string) :
  Js.includes needle (pre +:+ needle +:+ post) = true.
Proof.
  induction pre as [|c pre IH].
  - change (EmptyString +:+ needle +:+ post) with (needle +:+ post).
    apply includes_of_startsWith, startsWith_refl_app.
  - change (String c pre +:+ needle +:+ post)
      with (String c (pre +:+ needle +:+ post)).
    apply includes_skip, IH.
Qed.

Lemma split_nonempty (sep : ascii) (s : string) : Js.split sep s <> [].
Proof.
  destruct s as [|c s]; simpl; [discriminate|].
  destruct (Ascii.eqb c sep); [discriminate|].
  destruct (Js.split sep s); discriminate.
Qed.

(* ===================================================================== *)
(** ** What a call of each adapter does *)
(* ===================================================================== *)

Section Properties.

Context {Exn : Type}.
Implicit Types (remote : Remote Exn) (h : list (Event Exn)) (s : Store).
Implicit Types (response : GenerateContentResponse) (ps : list Part).

(** [run] follows the sequencing, the handler and the cleanup of a
    program. *)
Lemma run_bind {A B : Type} (p : Prog Exn A) (f : A -> Prog Exn B) remote h s :
  run remote (bind p f) h s =
  match run remote p h s with
  | (h', s', Returned a) => run remote (f a) h' s'
  | (h', s', Thrown e) => (h', s', Thrown e)
  end.
Proof.
  revert h s.
  induction p as [a|e|req k IH|args k IH|key k IH|key value k IH|u k IH];
    intros h s; simpl; auto.
Qed.

Lemma run_try_catch {A : Type} (p : Prog Exn A) (handler : Exn -> Prog Exn A)
      remote h s :
  run remote (try_catch p handler) h s =
  match run remote p h s with
  | (h', s', Returned a) => (h', s', Returned a)
  | (h', s', Thrown e) => run remote (handler e) h' s'
  end.
Proof.
  revert h s.
  induction p as [a|e|req k IH|args k IH|key k IH|key value k IH|u k IH];
    intros h s; simpl; auto.
Qed.

Lemma run_try_finally {A : Type} (p : Prog Exn A) (cleanup : Prog Exn unit)
      remote h s :
  run remote (try_finally p cleanup) h s =
  match run remote p h s with
  | (h', s', c) =>
      match run remote cleanup h' s' with
      | (h'', s'', Returned _) => (h'', s'', c)
      | (h'', s'', Thrown e) => (h'', s'', Thrown e)
      end
  end.
Proof.
  revert h s.
  induction p as [a|e|req k IH|args k IH|key k IH|key value k IH|u k IH];
    intros h s; simpl; auto; rewrite run_bind;
    destruct (run remote cleanup h s) as [[h' s'] [[]|e']]; reflexivity.
Qed.

Lemma optional_chain_parts response :
  default []
    (cs ← candidates response; c ← cs !! 0%nat; ct ← content c; parts ct)
  = first_candidate_parts response.
Proof.
  destruct response as [[[|c cs]|]]; try reflexivity.
  destruct c as [[[[ps|]]|]]; reflexivity.
Qed.

(** One call of [transformToArtisticStyle], case by case on how the
    request settles. *)
Lemma run_transformToArtisticStyle remote h s b m style :
  run remote (transformToArtisticStyle b m style) h s =
  let req :=
    transformToArtisticStyle_request b m (catalog s !! style_key style) in
  match remote h req with
  | Fulfilled response =>
      (h ++ [EvGenerateContent (mod_ai (service s)) req], s,
       Returned (transformToArtisticStyle_scan (first_candidate_parts response)))
  | Rejected e =>
      (h ++ [EvGenerateContent (mod_ai (service s)) req;
             EvConsoleError [ArgText "Error transforming image:"; ArgError e]],
       s, Thrown e)
  end.
Proof.
  unfold transformToArtisticStyle, catalog. simpl.
  destruct (remote h _) as [response|e]; simpl.
  - rewrite optional_chain_parts. reflexivity.
  - rewrite <- app_assoc. reflexivity.
Qed.

(** One call of [swapOutfit], case by case on how the request settles. *)
Lemma run_swapOutfit remote h s b m d :
  run remote (swapOutfit b m d) h s =
  let req := swapOutfit_request b m d in
  match remote h req with
  | Fulfilled response =>
      (h ++ [EvGenerateContent (mod_ai (service s)) req], s,
       Returned (swapOutfit_scan (first_candidate_parts response)))
  | Rejected e =>
      (h ++ [EvGenerateContent (mod_ai (service s)) req;
             EvConsoleError [ArgText "Error swapping outfit:"; ArgError e]],
       s, Thrown e)
  end.
Proof.
  unfold swapOutfit. simpl.
  destruct (remote h _) as [response|e]; simpl.
  - rewrite optional_chain_parts. reflexivity.
  - rewrite <- app_assoc. reflexivity.
Qed.

Lemma scans_agree ps :
  transformToArtisticStyle_scan ps = swapOutfit_scan ps.
Proof.
  induction ps as [|p ps IH]; simpl; [reflexivity|].
  destruct (inlineData p); [reflexivity | exact IH].
Qed.

Lemma scan_skips_prefix pre ps :
  Forall no_inline pre ->
  transformToArtisticStyle_scan (pre ++ ps) = transformToArtisticStyle_scan ps.
Proof.
  induction 1 as [|q pre Hq _ IH]; simpl; [reflexivity|].
  unfold no_inline in Hq. rewrite Hq. exact IH.
Qed.

Lemma scan_without_inline ps :
  Forall no_inline ps -> transformToArtisticStyle_scan ps = None.
Proof.
  intros H. rewrite <- (app_nil_r ps). rewrite scan_skips_prefix by exact H.
  reflexivity.
Qed.

Lemma scan_first_inline pre p post blob :
  Forall no_inline pre ->
  inlineData p = Some blob ->
  transformToArtisticStyle_scan (pre ++ p :: post)
  = Some ("data:" +:+ Js.to_template (mimeType blob) +:+ ";base64,"
          +:+ Js.to_template (data blob)).
Proof.
  intros Hpre Hp. rewrite scan_skips_prefix by exact Hpre.
  simpl. rewrite Hp. reflexivity.
Qed.

(** A list with an inline part splits at the first one. *)
Lemma first_inline_split ps :
  Exists (fun p => inlineData p <> None) ps ->
  exists pre p post blob,
    ps = pre ++ p :: post /\ Forall no_inline pre /\ inlineData p = Some blob.
Proof.
  induction ps as [|q ps IH]; intros Hex.
  - inversion Hex.
  - destruct (inlineData q) as [blob|] eqn:Hq.
    + exists [], q, ps, blob. repeat split; [constructor | exact Hq].
    + assert (Exists (fun p => inlineData p <> None) ps) as Hrest.
      { inversion Hex as [? ? Hhead|? ? Htail]; [congruence | exact Htail]. }
      destruct (IH Hrest) as (pre & p & post & blob & -> & Hpre & Hp).
      exists (q :: pre), p, post, blob.
      repeat split; [constructor; [exact Hq | exact Hpre] | exact Hp].
Qed.

Lemma requests_of_app (h1 h2 : list (Event Exn)) :
  requests_of (h1 ++ h2) = requests_of h1 ++ requests_of h2.
Proof.
  induction h1 as [|[client req|args] h1 IH]; simpl; [reflexivity| |exact IH].
  rewrite IH. reflexivity.
Qed.

(** C1. When the first candidate's parts hold an inline payload, both
    adapters return [data:<mediaType>;base64,<bytes>] built from the first
    part that has one, whatever parts without payload come before it. *)
Theorem first_inline_image_is_returned
    remote h s b m style d response pre p post blob media bytes :
  first_candidate_parts response = pre ++ p :: post ->
  Forall no_inline pre ->
  inlineData p = Some blob ->
  mimeType blob = Some media ->
  data blob = Some bytes ->
  (remote h (transformToArtisticStyle_request b m (catalog s !! style_key style))
     = Fulfilled response ->
   completion_of (run remote (transformToArtisticStyle b m style) h s)
     = Returned (Some ("data:" +:+ media +:+ ";base64," +:+ bytes)))
  /\
  (remote h (swapOutfit_request b m d) = Fulfilled response ->
   completion_of (run remote (swapOutfit b m d) h s)
     = Returned (Some ("data:" +:+ media +:+ ";base64," +:+ bytes))).
Proof.
  intros Hparts Hpre Hp Hmedia Hbytes.
  pose proof (scan_first_inline pre p post blob Hpre Hp) as Hscan.
  rewrite Hmedia, Hbytes in Hscan. simpl in Hscan.
  split; intros Hremote.
  - rewrite run_transformToArtisticStyle. simpl. rewrite Hremote.
    unfold completion_of. simpl. rewrite Hparts, Hscan. reflexivity.
  - rewrite run_swapOutfit. simpl. rewrite Hremote.
    unfold completion_of. simpl.
    rewrite <- scans_agree, Hparts, Hscan. reflexivity.
Qed.

(** C2. When no part of the first candidate carries an inline payload,
    both adapters return [null]; they do not throw. *)
Theorem no_inline_image_returns_null remote h s b m style d response :
  Forall no_inline (first_candidate_parts response) ->
  (remote h (transformToArtisticStyle_request b m (catalog s !! style_key style))
     = Fulfilled response ->
   completion_of (run remote (transformToArtisticStyle b m style) h s)
     = Returned None)
  /\
  (remote h (swapOutfit_request b m d) = Fulfilled response ->
   completion_of (run remote (swapOutfit b m d) h s) = Returned None).
Proof.
  intros Hnone.
  pose proof (scan_without_inline _ Hnone) as Hscan.
  split; intros Hremote.
  - rewrite run_transformToArtisticStyle. simpl. rewrite Hremote.
    unfold completion_of. simpl. rewrite Hscan. reflexivity.
  - rewrite run_swapOutfit. simpl. rewrite Hremote.
    unfold completion_of. simpl. rewrite <- scans_agree, Hscan. reflexivity.
Qed.

(** C3. When the remote request fails, both adapters throw the very
    reason the request failed with; the history shows the one request and
    the console line, so nothing was retried and nothing recovered. *)
Theorem remote_failure_is_rethrown remote h s b m style d reason :
  (remote h (transformToArtisticStyle_request b m (catalog s !! style_key style))
     = Rejected reason ->
   completion_of (run remote (transformToArtisticStyle b m style) h s)
     = Thrown reason
   /\ history_of (run remote (transformToArtisticStyle b m style) h s)
      = h ++ [EvGenerateContent (mod_ai (service s))
                (transformToArtisticStyle_request b m
                   (catalog s !! style_key style));
              EvConsoleError
                [ArgText "Error transforming image:"; ArgError reason]])
  /\
  (remote h (swapOutfit_request b m d) = Rejected reason ->
   completion_of (run remote (swapOutfit b m d) h s) = Thrown reason
   /\ history_of (run remote (swapOutfit b m d) h s)
      = h ++ [EvGenerateContent (mod_ai (service s))
                (swapOutfit_request b m d);
              EvConsoleError
                [ArgText "Error swapping outfit:"; ArgError reason]]).
Proof.
  split; intros Hremote.
  - rewrite run_transformToArtisticStyle. simpl. rewrite Hremote.
    split; reflexivity.
  - rewrite run_swapOutfit. simpl. rewrite Hremote. split; reflexivity.
Qed.

Lemma prompt_of_defined style :
  exists prompt,
    prompt_of style = Some prompt
    /\ Js.truthy prompt = true
    /\ Js.startsWith "Transform" prompt = true.
Proof.
  destruct style; eexists;
    (split; [vm_compute; reflexivity | split; reflexivity]).
Qed.

(** C4. Each style is one of the six of the closed set and has an
    instruction in the Prompt Catalog; the instruction is not empty and
    contains the word Transform; reading it sends nothing, logs nothing and
    leaves the store as it was. *)
Theorem prompt_catalog_total remote h key st style :
  In style all_styles
  /\ exists prompt,
    prompt_of style = Some prompt
    /\ prompt <> EmptyString
    /\ Js.includes "Transform" prompt = true
    /\ run remote (lookup_style_prompt (style_key style)) h
           (mkStore (geminiService key) st)
       = (h, mkStore (geminiService key) st, Returned (Some prompt)).
Proof.
  destruct (prompt_of_defined style) as (prompt & Hget & Hne & Hstart).
  split; [destruct style; simpl; tauto|].
  exists prompt. repeat split.
  - exact Hget.
  - intros ->. discriminate Hne.
  - apply includes_of_startsWith, Hstart.
  - simpl. unfold prompt_of in Hget. rewrite Hget. reflexivity.
Qed.

(** C5. The instruction [swapOutfit] sends is the caller's description
    placed, as it is, between the two fixed pieces of a template; the
    template asks to keep identity, pose and background and to change only
    the clothing. *)
Theorem outfit_instruction_interpolates_description remote h s b m d :
  requests_of (history_of (run remote (swapOutfit b m d) h s))
    = requests_of h ++ [swapOutfit_request b m d]
  /\ (exists image_part,
        parts (contents (swapOutfit_request b m d))
        = Some [ image_part;
                 {| inlineData := None;
                    text := Some (outfit_template_head +:+ d
                                  +:+ outfit_template_tail) |} ])
  /\ Js.includes d (outfit_template_head +:+ d +:+ outfit_template_tail)
     = true
  /\ Js.includes "Keep the person's identity, pose, and background"
                 outfit_template_tail = true
  /\ Js.includes "Only change the clothing." outfit_template_tail = true
  /\ Js.includes "swap the outfit" outfit_template_head = true.
Proof.
  split; [|split; [|split; [|repeat split]]].
  - rewrite run_swapOutfit. simpl.
    destruct (remote h _); unfold history_of; simpl;
      rewrite requests_of_app; reflexivity.
  - eexists. reflexivity.
  - apply includes_infix.
Qed.

(** C6. The request of each adapter names the model
    [gemini-2.5-flash-image] and holds two parts in this order: the inline
    part with the caller's bytes and media type, then the text part with
    the instruction. *)
Theorem request_is_image_then_instruction remote h s b m style d :
  requests_of (history_of (run remote (transformToArtisticStyle b m style) h s))
    = requests_of h ++
      [ {| model := "gemini-2.5-flash-image";
           contents :=
             {| parts := Some
                  [ {| inlineData := Some {| data := b; mimeType := Some m |};
                       text := None |};
                    {| inlineData := None;
                       text := catalog s !! style_key style |} ] |} |} ]
  /\ requests_of (history_of (run remote (swapOutfit b m d) h s))
    = requests_of h ++
      [ {| model := "gemini-2.5-flash-image";
           contents :=
             {| parts := Some
                  [ {| inlineData := Some {| data := b; mimeType := Some m |};
                       text := None |};
                    {| inlineData := None;
                       text := Some (outfit_template_head +:+ d
                                     +:+ outfit_template_tail) |} ] |} |} ]
  /\ (forall key st,
        catalog (mkStore (geminiService key) st) !! style_key style
        = prompt_of style)
  /\ is_Some (prompt_of style).
Proof.
  split; [|split; [|split]].
  - rewrite run_transformToArtisticStyle. simpl.
    destruct (remote h _); unfold history_of; simpl;
      rewrite requests_of_app; reflexivity.
  - rewrite run_swapOutfit. simpl.
    destruct (remote h _); unfold history_of; simpl;
      rewrite requests_of_app; reflexivity.
  - reflexivity.
  - destruct (prompt_of_defined style) as (prompt & Hget & _).
    rewrite Hget. eexists. reflexivity.
Qed.

Lemma truthy_nonempty (str : string) :
  str <> EmptyString -> Js.truthy str = true.
Proof. destruct str; [congruence | reflexivity]. Qed.

(** C7. [swapOutfit] sends its request for every description, the empty
    one included. [handleTransform] in outfit mode looks at the trimmed
    description first: when it is empty nothing is sent or logged, the
    handler returns, and with an image loaded the error message asks for a
    description and the processing flag is off; when it is not empty (and
    an image is loaded) the request of [swapOutfit] goes out with the
    description untrimmed. *)
Theorem description_checked_by_caller_only remote h s st :
  (forall b m d,
      requests_of (history_of (run remote (swapOutfit b m d) h s))
      = requests_of h ++ [swapOutfit_request b m d])
  /\
  (mode st = mode_outfit ->
   Js.trim (outfitDescription st) = EmptyString ->
   history_of (run remote (handleTransform st) h s) = h
   /\ completion_of (run remote (handleTransform st) h s) = Returned tt
   /\ service (store_of (run remote (handleTransform st) h s)) = service s
   /\ (forall image,
         originalImage st = Some image ->
         Js.truthy image = true ->
         error (ui (store_of (run remote (handleTransform st) h s)))
         = Some "Please provide an outfit description."
         /\ isProcessing (ui (store_of (run remote (handleTransform st) h s)))
            = false
         /\ transformedImage
              (ui (store_of (run remote (handleTransform st) h s)))
            = transformedImage (ui s)))
  /\
  (forall image,
      mode st = mode_outfit ->
      originalImage st = Some image ->
      Js.truthy image = true ->
      Js.trim (outfitDescription st) <> EmptyString ->
      requests_of (history_of (run remote (handleTransform st) h s))
      = requests_of h ++
        [swapOutfit_request
           (Js.split "," image !! 1%nat)
           (Js.or_else (Js.matchMime (hd EmptyString (Js.split "," image)))
                       "image/png")
           (outfitDescription st)]).
Proof.
  split; [|split].
  - intros b m d. rewrite run_swapOutfit. simpl.
    destruct (remote h _); unfold history_of; simpl;
      rewrite requests_of_app; reflexivity.
  - intros Hmode Htrim. unfold handleTransform.
    destruct (originalImage st) as [image|] eqn:Himage.
    + destruct (Js.truthy image) eqn:Htruthy; simpl.
      * rewrite Hmode, Htrim. simpl.
        split; [reflexivity|]. split; [reflexivity|]. split; [reflexivity|].
        intros image' _ _. split; [reflexivity|]. split; reflexivity.
      * split; [reflexivity|]. split; [reflexivity|]. split; [reflexivity|].
        intros image' Heq Habs. injection Heq as <-. congruence.
    + simpl.
      split; [reflexivity|]. split; [reflexivity|]. split; [reflexivity|].
      intros image' Heq. discriminate Heq.
  - intros image Hmode Himage Htruthy Htrim. unfold handleTransform.
    rewrite Himage, Htruthy, Hmode, (truthy_nonempty _ Htrim). simpl.
    destruct (remote h _) as [response|reason]; simpl.
    + unfold handleTransform_show.
      destruct (Js.truthy_opt _); unfold history_of; simpl;
        rewrite requests_of_app; reflexivity.
    + unfold history_of; simpl.
      rewrite !requests_of_app. simpl. rewrite !app_nil_r. reflexivity.
Qed.

(** C8, as amended. A call of either adapter leaves the store as it
    found it, the Prompt Catalog included, and adds to the history the one
    request and, only when that request fails, the console line that
    reports the failure. *)
Theorem adapter_leaves_store_unchanged remote h s b m style d :
  (store_of (run remote (transformToArtisticStyle b m style) h s) = s
   /\ catalog (store_of (run remote (transformToArtisticStyle b m style) h s))
      = catalog s
   /\ history_of (run remote (transformToArtisticStyle b m style) h s)
      = h ++
        EvGenerateContent (mod_ai (service s))
          (transformToArtisticStyle_request b m (catalog s !! style_key style))
        :: match remote h (transformToArtisticStyle_request b m
                             (catalog s !! style_key style)) with
           | Fulfilled _ => []
           | Rejected reason =>
               [EvConsoleError
                  [ArgText "Error transforming image:"; ArgError reason]]
           end)
  /\
  (store_of (run remote (swapOutfit b m d) h s) = s
   /\ catalog (store_of (run remote (swapOutfit b m d) h s)) = catalog s
   /\ history_of (run remote (swapOutfit b m d) h s)
      = h ++
        EvGenerateContent (mod_ai (service s)) (swapOutfit_request b m d)
        :: match remote h (swapOutfit_request b m d) with
           | Fulfilled _ => []
           | Rejected reason =>
               [EvConsoleError
                  [ArgText "Error swapping outfit:"; ArgError reason]]
           end).
Proof.
  split.
  - rewrite run_transformToArtisticStyle. simpl.
    destruct (remote h _); repeat split.
  - rewrite run_swapOutfit. simpl.
    destruct (remote h _); repeat split.
Qed.

(** C9. Whatever the response, the extraction returns and does not
    throw; when the response has no candidates, or its first candidate no
    content, or that content no list of parts, both adapters return
    [null]. *)
Theorem missing_fields_return_null remote h s b m style d response :
  ((remote h (transformToArtisticStyle_request b m (catalog s !! style_key style))
      = Fulfilled response ->
    exists result,
      completion_of (run remote (transformToArtisticStyle b m style) h s)
      = Returned result)
   /\
   (remote h (swapOutfit_request b m d) = Fulfilled response ->
    exists result,
      completion_of (run remote (swapOutfit b m d) h s) = Returned result))
  /\
  (candidates response = None
   \/ candidates response = Some []
   \/ (exists c cs,
         candidates response = Some (c :: cs)
         /\ (content c = None
             \/ exists ct, content c = Some ct /\ parts ct = None)) ->
   (remote h (transformToArtisticStyle_request b m (catalog s !! style_key style))
      = Fulfilled response ->
    completion_of (run remote (transformToArtisticStyle b m style) h s)
    = Returned None)
   /\
   (remote h (swapOutfit_request b m d) = Fulfilled response ->
    completion_of (run remote (swapOutfit b m d) h s) = Returned None)).
Proof.
  split.
  - split; intros Hremote.
    + rewrite run_transformToArtisticStyle. simpl. rewrite Hremote.
      eexists. reflexivity.
    + rewrite run_swapOutfit. simpl. rewrite Hremote.
      eexists. reflexivity.
  - intros Hmissing.
    assert (first_candidate_parts response = []) as Hparts.
    { unfold first_candidate_parts.
      destruct Hmissing as [-> | [-> | (c & cs & -> & [-> | (ct & -> & ->)])]];
        reflexivity. }
    split; intros Hremote.
    + rewrite run_transformToArtisticStyle. simpl. rewrite Hremote.
      unfold completion_of. simpl. rewrite Hparts. reflexivity.
    + rewrite run_swapOutfit. simpl. rewrite Hremote.
      unfold completion_of. simpl. rewrite Hparts. reflexivity.
Qed.

(** C10. The two adapters name the same model, send the same image part
    and differ in the text part alone; their two loops compute the same
    function; so when their requests settle alike they complete alike. *)
Theorem adapters_differ_only_in_instruction
    remote1 remote2 h1 h2 s1 s2 b m style d outcome :
  model (transformToArtisticStyle_request b m (catalog s1 !! style_key style))
    = "gemini-2.5-flash-image"
  /\ model (swapOutfit_request b m d) = "gemini-2.5-flash-image"
  /\ (exists image_part instruction1 instruction2,
        parts (contents (transformToArtisticStyle_request b m
                           (catalog s1 !! style_key style)))
        = Some [image_part; {| inlineData := None; text := instruction1 |}]
        /\ parts (contents (swapOutfit_request b m d))
           = Some [image_part; {| inlineData := None; text := instruction2 |}])
  /\ (forall ps, transformToArtisticStyle_scan ps = swapOutfit_scan ps)
  /\ (remote1 h1 (transformToArtisticStyle_request b m
                    (catalog s1 !! style_key style)) = outcome ->
      remote2 h2 (swapOutfit_request b m d) = outcome ->
      completion_of (run remote1 (transformToArtisticStyle b m style) h1 s1)
      = completion_of (run remote2 (swapOutfit b m d) h2 s2)).
Proof.
  split; [reflexivity|]. split; [reflexivity|].
  split; [do 3 eexists; split; reflexivity|].
  split; [exact scans_agree|].
  intros H1 H2.
  rewrite run_transformToArtisticStyle, run_swapOutfit. simpl.
  rewrite H1, H2. destruct outcome; unfold completion_of; simpl.
  - rewrite scans_agree. reflexivity.
  - reflexivity.
Qed.

End Properties.

(* ===================================================================== *)
(** ** The properties at the fixtures *)
(* ===================================================================== *)

(** C1 at the fixture with a text part before two images: the PNG, the
    first image, is returned by both adapters. *)
Lemma text_then_images_fixture_returns_png :
  first_candidate_parts fixture_text_then_images
  = [mkPart None (Some "Here is your image.")]
    ++ mkPart (Some (mkBlob (Some "iVBORw0KGgo=") (Some "image/png"))) None
    :: [mkPart (Some (mkBlob (Some "/9j/4AAQ") (Some "image/jpeg"))) None]
  /\ Forall no_inline [mkPart None (Some "Here is your image.")]
  /\ completion_of
       (run (remote_answering fixture_text_then_images)
            (transformToArtisticStyle (Some "/9j/4AAQ") "image/jpeg" oil)
            [] fixture_store)
     = Returned (Some "data:image/png;base64,iVBORw0KGgo=")
  /\ completion_of
       (run (remote_answering fixture_text_then_images)
            (swapOutfit (Some "/9j/4AAQ") "image/jpeg" "a red dress")
            [] fixture_store)
     = Returned (Some "data:image/png;base64,iVBORw0KGgo=").
Proof.
  assert (Forall no_inline [mkPart None (Some "Here is your image.")]) as Hpre
    by (repeat constructor).
  destruct (first_inline_image_is_returned
              (remote_answering fixture_text_then_images) [] fixture_store
              (Some "/9j/4AAQ") "image/jpeg" oil "a red dress"
              fixture_text_then_images
              [mkPart None (Some "Here is your image.")]
              (mkPart (Some (mkBlob (Some "iVBORw0KGgo=") (Some "image/png")))
                      None)
              [mkPart (Some (mkBlob (Some "/9j/4AAQ") (Some "image/jpeg"))) None]
              (mkBlob (Some "iVBORw0KGgo=") (Some "image/png"))
              "image/png" "iVBORw0KGgo="
              eq_refl Hpre eq_refl eq_refl eq_refl) as [Hstyle Houtfit].
  split; [reflexivity|]. split; [exact Hpre|].
  split; [apply Hstyle | apply Houtfit]; reflexivity.
Defined.

(** C2 at the text-only fixture. *)
Lemma text_only_fixture_returns_null :
  Forall no_inline (first_candidate_parts fixture_text_only)
  /\ completion_of
       (run (remote_answering fixture_text_only)
            (transformToArtisticStyle (Some "/9j/4AAQ") "image/jpeg" pencil)
            [] fixture_store)
     = Returned None
  /\ completion_of
       (run (remote_answering fixture_text_only)
            (swapOutfit (Some "/9j/4AAQ") "image/jpeg" "a red dress")
            [] fixture_store)
     = Returned None.
Proof.
  assert (Forall no_inline (first_candidate_parts fixture_text_only)) as Hnone
    by (repeat constructor).
  destruct (no_inline_image_returns_null
              (remote_answering fixture_text_only) [] fixture_store
              (Some "/9j/4AAQ") "image/jpeg" pencil "a red dress"
              fixture_text_only Hnone) as [Hstyle Houtfit].
  split; [exact Hnone|].
  split; [apply Hstyle | apply Houtfit]; reflexivity.
Defined.

(** C3 at a service that rejects the first request and would answer a
    second one. *)
Lemma service_unavailable_reaches_caller :
  completion_of
    (run (remote_failing_once "503 Service Unavailable" fixture_text_then_images)
         (transformToArtisticStyle (Some "/9j/4AAQ") "image/jpeg" charcoal)
         [] fixture_store)
  = Thrown "503 Service Unavailable"
  /\ requests_of
       (history_of
          (run (remote_failing_once "503 Service Unavailable"
                                    fixture_text_then_images)
               (swapOutfit (Some "/9j/4AAQ") "image/jpeg" "a red dress")
               [] fixture_store))
     = [swapOutfit_request (Some "/9j/4AAQ") "image/jpeg" "a red dress"].
Proof.
  destruct (remote_failure_is_rethrown
              (remote_failing_once "503 Service Unavailable"
                                   fixture_text_then_images)
              [] fixture_store (Some "/9j/4AAQ") "image/jpeg" charcoal
              "a red dress" "503 Service Unavailable") as [Hstyle Houtfit].
  destruct (Hstyle eq_refl) as [Hthrown _].
  destruct (Houtfit eq_refl) as [_ Hhistory].
  split; [exact Hthrown|]. rewrite Hhistory. reflexivity.
Defined.

(** C7 at a description of three spaces, and at the empty description
    handed to [swapOutfit] directly. *)
Lemma blank_description_stops_at_call_site :
  mode fixture_app = mode_outfit
  /\ Js.trim (outfitDescription fixture_app) = EmptyString
  /\ history_of
       (run (remote_answering fixture_text_then_images)
            (handleTransform fixture_app) [] fixture_store)
     = []
  /\ error
       (ui (store_of
              (run (remote_answering fixture_text_then_images)
                   (handleTransform fixture_app) [] fixture_store)))
     = Some "Please provide an outfit description."
  /\ requests_of
       (history_of
          (run (remote_answering fixture_text_then_images)
               (swapOutfit (Some "/9j/4AAQ") "image/jpeg" EmptyString)
               [] fixture_store))
     = [swapOutfit_request (Some "/9j/4AAQ") "image/jpeg" EmptyString].
Proof.
  destruct (description_checked_by_caller_only
              (remote_answering fixture_text_then_images) [] fixture_store
              fixture_app) as (Hadapter & Hempty & _).
  destruct (Hempty eq_refl eq_refl) as (Hhistory & _ & _ & Hui).
  destruct (Hui "data:image/jpeg;base64,/9j/4AAQ" eq_refl eq_refl)
    as (Herror & _).
  split; [reflexivity|]. split; [reflexivity|].
  split; [exact Hhistory|]. split; [exact Herror|].
  exact (Hadapter (Some "/9j/4AAQ") "image/jpeg" EmptyString).
Defined.

(** C9 at the fixture without candidates. *)
Lemma no_candidates_fixture_returns_null :
  candidates fixture_no_candidates = None
  /\ completion_of
       (run (remote_answering fixture_no_candidates)
            (transformToArtisticStyle (Some "/9j/4AAQ") "image/jpeg" popart)
            [] fixture_store)
     = Returned None
  /\ completion_of
       (run (remote_answering fixture_no_candidates)
            (swapOutfit (Some "/9j/4AAQ") "image/jpeg" "a red dress")
            [] fixture_store)
     = Returned None.
Proof.
  destruct (missing_fields_return_null
              (remote_answering fixture_no_candidates) [] fixture_store
              (Some "/9j/4AAQ") "image/jpeg" popart "a red dress"
              fixture_no_candidates) as [_ Hmissing].
  destruct (Hmissing (or_introl eq_refl)) as [Hstyle Houtfit].
  split; [reflexivity|].
  split; [apply Hstyle | apply Houtfit]; reflexivity.
Defined.

(** C10 at the fixture with a text part before two images. *)
Lemma same_response_same_result_at_fixture :
  completion_of
    (run (remote_answering fixture_text_then_images)
         (transformToArtisticStyle (Some "/9j/4AAQ") "image/jpeg" cyberpunk)
         [] fixture_store)
  = completion_of
      (run (remote_answering fixture_text_then_images)
           (swapOutfit (Some "/9j/4AAQ") "image/jpeg" "a red dress")
           [] fixture_store).
Proof.
  destruct (adapters_differ_only_in_instruction
              (remote_answering fixture_text_then_images)
              (remote_answering fixture_text_then_images)
              [] [] fixture_store fixture_store
              (Some "/9j/4AAQ") "image/jpeg" cyberpunk "a red dress"
              (Fulfilled fixture_text_then_images))
    as (_ & _ & _ & _ & Hsame).
  exact (Hsame eq_refl eq_refl).
Defined.

(** C8, as first stated, fails when the request is rejected: the history of
    the call then holds the request and a console line, so it is not the
    single request alone. *)
Lemma failed_request_also_writes_console :
  ~ (forall (remote : Remote string) s b m style,
        exists client req,
          history_of (run remote (transformToArtisticStyle b m style) [] s)
          = [EvGenerateContent client req]).
Proof.
  intros Hclaim.
  destruct (Hclaim (remote_failing "fetch failed") fixture_store
                   (Some "/9j/4AAQ") "image/jpeg" oil) as (client & req & H).
  rewrite run_transformToArtisticStyle in H. simpl in H.
  unfold history_of in H. simpl in H. discriminate H.
Qed.

(** An inline part that declares neither media type nor bytes is still
    returned, printed the way a template literal prints [undefined]. *)
Example scan_undeclared_fields :
  transformToArtisticStyle_scan [mkPart (Some (mkBlob None None)) None]
  = Some "data:undefined;base64,undefined".
Proof. reflexivity. Qed.

(** A failed request ends the call even when a second attempt would have
    been answered. *)
Example no_second_attempt :
  run (remote_failing_once "fetch failed" fixture_text_then_images)
      (swapOutfit (Some "/9j/4AAQ") "image/jpeg" "a red dress")
      [] fixture_store
  = ([EvGenerateContent (ai (Some "test-key"))
        (swapOutfit_request (Some "/9j/4AAQ") "image/jpeg" "a red dress");
      EvConsoleError [ArgText "Error swapping outfit:"; ArgError "fetch failed"]],
     fixture_store, Thrown "fetch failed").
Proof. reflexivity. Qed.

(** [handleTransform] with a description in place: the image is shown. *)
Example handleTransform_shows_image :
  ui (store_of
        (run (remote_answering fixture_text_then_images)
             (handleTransform
                (mkAppState (Some "data:image/jpeg;base64,/9j/4AAQ") None oil
                            " a red dress " mode_outfit false None))
             [] fixture_store))
  = mkAppState (Some "data:image/jpeg;base64,/9j/4AAQ")
               (Some "data:image/png;base64,iVBORw0KGgo=") oil "   "
               mode_outfit false None.
Proof. reflexivity. Qed.

(* ===================================================================== *)
(** ** The rest of the adapter and of the component *)
(* ===================================================================== *)

Section Coverage.

Context {Exn : Type}.
Implicit Types (remote : Remote Exn) (h : list (Event Exn)) (s : Store).
Implicit Types (response : GenerateContentResponse) (ps : list Part).
Implicit Types (st : AppState).

(** One call of [handleTransform] that reaches an adapter, case by case on
    how the request settles. *)
Lemma run_handleTransform_submitted remote h s st image :
  originalImage st = Some image ->
  Js.truthy image = true ->
  submits st = true ->
  run remote (handleTransform st) h s =
  let req := handleTransform_request st image s in
  match remote h req with
  | Fulfilled response =>
      let result :=
        transformToArtisticStyle_scan (first_candidate_parts response) in
      (h ++ [EvGenerateContent (mod_ai (service s)) req],
       mkStore (service s)
         (after_setters
            [ setIsProcessing true; setError None;
              if Js.truthy_opt result then setTransformedImage result
              else setError (Some (failed_message st));
              setIsProcessing false ]
            (ui s)),
       Returned tt)
  | Rejected reason =>
      (h ++ [EvGenerateContent (mod_ai (service s)) req;
             EvConsoleError [ArgText (adapter_label (mode st)); ArgError reason];
             EvConsoleError [ArgError reason]],
       mkStore (service s)
         (after_setters
            [ setIsProcessing true; setError None;
              setError (Some thrown_message); setIsProcessing false ]
            (ui s)),
       Returned tt)
  end.
Proof.
  intros Himage Htruthy Hsub.
  unfold submits in Hsub. rewrite Himage in Hsub. simpl in Hsub.
  rewrite Htruthy in Hsub. simpl in Hsub.
  unfold handleTransform, handleTransform_request.
  rewrite Himage, Htruthy.
  destruct (mode st) eqn:Hmode.
  - simpl. unfold catalog, dataUrl_base64Data, dataUrl_mimeType.
    destruct (remote h _) as [response|reason]; simpl.
    + rewrite optional_chain_parts. unfold handleTransform_show.
      destruct (Js.truthy_opt _); simpl; reflexivity.
    + rewrite <- !app_assoc. reflexivity.
  - rewrite Hsub. simpl. unfold dataUrl_base64Data, dataUrl_mimeType.
    destruct (remote h _) as [response|reason]; simpl.
    + rewrite optional_chain_parts, <- scans_agree.
      unfold handleTransform_show.
      destruct (Js.truthy_opt _); simpl; [reflexivity|].
      unfold failed_message. rewrite Hmode. reflexivity.
    + rewrite <- !app_assoc. reflexivity.
Qed.

Lemma run_handleTransform_idle remote h s st :
  Js.truthy_opt (originalImage st) = false ->
  run remote (handleTransform st) h s = (h, s, Returned tt).
Proof.
  intros Hidle. unfold handleTransform.
  destruct (originalImage st) as [image|]; [|reflexivity].
  simpl in Hidle. rewrite Hidle. reflexivity.
Qed.

Lemma run_handleTransform_blank remote h s st image :
  originalImage st = Some image ->
  Js.truthy image = true ->
  submits st = false ->
  run remote (handleTransform st) h s =
  (h,
   mkStore (service s)
     (after_setters
        [ setIsProcessing true; setError None;
          setError (Some "Please provide an outfit description.");
          setIsProcessing false; setIsProcessing false ]
        (ui s)),
   Returned tt).
Proof.
  intros Himage Htruthy Hsub.
  unfold submits in Hsub. rewrite Himage in Hsub. simpl in Hsub.
  rewrite Htruthy in Hsub. simpl in Hsub.
  unfold handleTransform. rewrite Himage, Htruthy.
  destruct (mode st); [discriminate Hsub|].
  rewrite Hsub. reflexivity.
Qed.

(** The three ways a call of [handleTransform] goes. *)
Lemma handleTransform_cases st :
  Js.truthy_opt (originalImage st) = false
  \/ exists image,
       originalImage st = Some image /\ Js.truthy image = true.
Proof.
  destruct (originalImage st) as [image|]; [|left; reflexivity].
  destruct (Js.truthy image) eqn:Htruthy.
  - right. exists image. split; [reflexivity | exact Htruthy].
  - left. exact Htruthy.
Qed.

Lemma console_of_app (h1 h2 : list (Event Exn)) :
  console_of (h1 ++ h2) = console_of h1 ++ console_of h2.
Proof.
  induction h1 as [|[client req|args] h1 IH]; simpl; [reflexivity|exact IH|].
  rewrite IH. reflexivity.
Qed.

Lemma split_without_separator (c : ascii) (a : string) :
  occurs c a = false -> Js.split c a = [a].
Proof.
  induction a as [|x a IH]; simpl; [reflexivity|].
  intros H. apply orb_false_iff in H as [Hx Ha].
  rewrite Hx, (IH Ha). reflexivity.
Qed.

Lemma split_at_first_separator (c : ascii) (a rest : string) :
  occurs c a = false ->
  Js.split c (a +:+ String c rest) = a :: Js.split c rest.
Proof.
  induction a as [|x a IH]; intros H.
  - change (EmptyString +:+ String c rest) with (String c rest).
    simpl. rewrite Ascii.eqb_refl. reflexivity.
  - change (String x a +:+ String c rest) with (String x (a +:+ String c rest)).
    simpl in H. apply orb_false_iff in H as [Hx Ha].
    simpl. rewrite Hx, (IH Ha). reflexivity.
Qed.

Lemma lazyUntilSemicolon_stops (m rest : string) :
  occurs ";" m = false ->
  has_line_terminator m = false ->
  Js.lazyUntilSemicolon (m +:+ String ";" rest) = Some m.
Proof.
  induction m as [|x m IH]; intros Hsemi Hline.
  - reflexivity.
  - change (String x m +:+ String ";" rest)
      with (String x (m +:+ String ";" rest)).
    simpl in Hsemi, Hline.
    apply orb_false_iff in Hsemi as [Hx Hm].
    apply orb_false_iff in Hline as [Hlx Hlm].
    simpl. rewrite Hx, Hlx, (IH Hm Hlm). reflexivity.
Qed.

Lemma matchMime_without_colon (p : string) :
  occurs ":" p = false -> Js.matchMime p = None.
Proof.
  induction p as [|x p IH]; simpl; [reflexivity|].
  intros H. apply orb_false_iff in H as [Hx Hp].
  rewrite Hx. exact (IH Hp).
Qed.

Lemma occurs_app (c : ascii) (a b : string) :
  occurs c (a +:+ b) = occurs c a || occurs c b.
Proof.
  induction a as [|x a IH].
  - reflexivity.
  - change (String x a +:+ b) with (String x (a +:+ b)). simpl.
    rewrite IH, orb_assoc. reflexivity.
Qed.

Lemma append_associative (a b c : string) :
  a +:+ (b +:+ c) = (a +:+ b) +:+ c.
Proof.
  induction a as [|x a IH]; [reflexivity|].
  change (String x a +:+ (b +:+ c)) with (String x (a +:+ (b +:+ c))).
  rewrite IH. reflexivity.
Qed.

(** The two readings of a data URL [data:<type>;<params>,<payload>]. *)
Lemma dataUrl_reading (m params d : string) :
  m <> EmptyString ->
  occurs ";" m = false ->
  occurs "," m = false ->
  has_line_terminator m = false ->
  occurs "," params = false ->
  occurs "," d = false ->
  dataUrl_mimeType ("data:" +:+ m +:+ ";" +:+ params +:+ "," +:+ d) = m
  /\ dataUrl_base64Data ("data:" +:+ m +:+ ";" +:+ params +:+ "," +:+ d)
     = Some d.
Proof.
  intros Hne Hsemi Hcomma Hline Hparams Hd.
  assert ("data:" +:+ m +:+ ";" +:+ params +:+ "," +:+ d
          = ("data:" +:+ m +:+ ";" +:+ params) +:+ String "," d) as Hshape.
  { change (String "," d) with ("," +:+ d).
    rewrite <- !append_associative. reflexivity. }
  assert (occurs "," ("data:" +:+ m +:+ ";" +:+ params) = false) as Hprefix.
  { change ("data:" +:+ m +:+ ";" +:+ params)
      with (String "d" (String "a" (String "t" (String "a" (String ":"
              (m +:+ String ";" params)))))).
    simpl. rewrite occurs_app. simpl. rewrite Hcomma, Hparams. reflexivity. }
  unfold dataUrl_mimeType, dataUrl_base64Data.
  rewrite Hshape, (split_at_first_separator _ _ _ Hprefix).
  rewrite (split_without_separator _ _ Hd). simpl hd.
  split; [|reflexivity].
  change ("data:" +:+ m +:+ ";" +:+ params)
    with (String "d" (String "a" (String "t" (String "a" (String ":"
            (m +:+ String ";" params)))))).
  simpl Js.matchMime. rewrite (lazyUntilSemicolon_stops _ _ Hsemi Hline).
  unfold Js.or_else. simpl. rewrite (truthy_nonempty _ Hne). reflexivity.
Qed.

Lemma scan_none_iff ps :
  transformToArtisticStyle_scan ps = None <-> Forall no_inline ps.
Proof.
  split; [|apply scan_without_inline].
  induction ps as [|p ps IH]; simpl; intros H; [constructor|].
  destruct (inlineData p) eqn:Hp; [discriminate H|].
  constructor; [exact Hp | exact (IH H)].
Qed.

Lemma scan_result_truthy ps result :
  transformToArtisticStyle_scan ps = Some result -> Js.truthy result = true.
Proof.
  induction ps as [|p ps IH]; simpl; [discriminate|].
  destruct (inlineData p); [|exact IH].
  intros H. injection H as <-. reflexivity.
Qed.

(** X1. An adapter whose request is fulfilled returns [null] exactly when
    no part of the first candidate carries an inline payload; when it
    returns a string, the string is not empty. *)
Theorem null_exactly_without_inline_part remote h s b m style d response :
  (remote h (transformToArtisticStyle_request b m (catalog s !! style_key style))
     = Fulfilled response ->
   (completion_of (run remote (transformToArtisticStyle b m style) h s)
      = Returned None
    <-> Forall no_inline (first_candidate_parts response))
   /\ (forall uri,
         completion_of (run remote (transformToArtisticStyle b m style) h s)
         = Returned (Some uri) -> uri <> EmptyString))
  /\
  (remote h (swapOutfit_request b m d) = Fulfilled response ->
   (completion_of (run remote (swapOutfit b m d) h s) = Returned None
    <-> Forall no_inline (first_candidate_parts response))
   /\ (forall uri,
         completion_of (run remote (swapOutfit b m d) h s)
         = Returned (Some uri) -> uri <> EmptyString)).
Proof.
  split; intros Hremote.
  - rewrite run_transformToArtisticStyle. simpl. rewrite Hremote.
    unfold completion_of. simpl. split.
    + rewrite <- scan_none_iff. split; [intros H; injection H; auto|].
      intros ->. reflexivity.
    + intros uri H. injection H as H.
      apply scan_result_truthy in H. intros ->. discriminate H.
  - rewrite run_swapOutfit. simpl. rewrite Hremote.
    unfold completion_of. simpl. rewrite <- scans_agree. split.
    + rewrite <- scan_none_iff. split; [intros H; injection H; auto|].
      intros ->. reflexivity.
    + intros uri H. injection H as H.
      apply scan_result_truthy in H. intros ->. discriminate H.
Qed.

(** X2. Only the first candidate of a response counts: two responses with
    the same first candidate give the same result, whatever candidates
    follow it. *)
Theorem later_candidates_are_ignored
    remote1 remote2 h1 h2 s b m style d c cs1 cs2 :
  (remote1 h1 (transformToArtisticStyle_request b m (catalog s !! style_key style))
     = Fulfilled (mkResponse (Some (c :: cs1))) ->
   remote2 h2 (transformToArtisticStyle_request b m (catalog s !! style_key style))
     = Fulfilled (mkResponse (Some (c :: cs2))) ->
   completion_of (run remote1 (transformToArtisticStyle b m style) h1 s)
   = completion_of (run remote2 (transformToArtisticStyle b m style) h2 s))
  /\
  (remote1 h1 (swapOutfit_request b m d)
     = Fulfilled (mkResponse (Some (c :: cs1))) ->
   remote2 h2 (swapOutfit_request b m d)
     = Fulfilled (mkResponse (Some (c :: cs2))) ->
   completion_of (run remote1 (swapOutfit b m d) h1 s)
   = completion_of (run remote2 (swapOutfit b m d) h2 s)).
Proof.
  split; intros H1 H2.
  - rewrite !run_transformToArtisticStyle. simpl. rewrite H1, H2. reflexivity.
  - rewrite !run_swapOutfit. simpl. rewrite H1, H2. reflexivity.
Qed.

Lemma style_key_injective (a b : ArtisticStyle) :
  style_key a = style_key b -> a = b.
Proof. destruct a, b; simpl; intros H; try reflexivity; discriminate H. Qed.

(** X3. Two different styles have different instructions in the Prompt
    Catalog, so on the module as loaded their requests differ. *)
Theorem styles_have_distinct_instructions (style1 style2 : ArtisticStyle) :
  style1 <> style2 ->
  prompt_of style1 <> prompt_of style2
  /\ forall b m key st,
       transformToArtisticStyle_request b m
         (catalog (mkStore (geminiService key) st) !! style_key style1)
       <> transformToArtisticStyle_request b m
            (catalog (mkStore (geminiService key) st) !! style_key style2).
Proof.
  intros Hne.
  assert (prompt_of style1 <> prompt_of style2) as Hprompt.
  { intros Heq. apply Hne. clear Hne.
    destruct style1, style2; try reflexivity;
      vm_compute in Heq; discriminate Heq. }
  split; [exact Hprompt|].
  intros b m key st Heq. apply Hprompt.
  unfold transformToArtisticStyle_request in Heq.
  injection Heq as Heq. exact Heq.
Qed.


Lemma handleTransform_request_shape st image s :
  handleTransform_request st image s
  = image_request (dataUrl_base64Data image) (dataUrl_mimeType image)
                  (handleTransform_instruction st s).
Proof.
  unfold handleTransform_request, handleTransform_instruction.
  destruct (mode st); reflexivity.
Qed.

Ltac handler_cases remote h s st :=
  let Hidle := fresh "Hidle" in
  let image := fresh "image" in
  let Himage := fresh "Himage" in
  let Htruthy := fresh "Htruthy" in
  let Hsub := fresh "Hsub" in
  destruct (handleTransform_cases st) as [Hidle | (image & Himage & Htruthy)];
  [ rewrite (run_handleTransform_idle remote h s st Hidle)
  | destruct (submits st) eqn:Hsub;
    [ rewrite (run_handleTransform_submitted remote h s st image
                 Himage Htruthy Hsub);
      cbv zeta;
      destruct (remote h (handleTransform_request st image s))
    | rewrite (run_handleTransform_blank remote h s st image
                 Himage Htruthy Hsub) ] ].

(** X5. Without an image (none, or the empty string) [handleTransform]
    does nothing: no request, no console line, no state setter, and it
    returns. *)
Theorem handleTransform_without_image remote h s st :
  originalImage st = None \/ originalImage st = Some EmptyString ->
  run remote (handleTransform st) h s = (h, s, Returned tt).
Proof.
  intros [H | H]; apply run_handleTransform_idle; rewrite H; reflexivity.
Qed.

(** X6. [handleTransform] never throws: whatever the service does, the
    failure of an adapter included, the call returns. *)
Theorem handleTransform_never_throws remote h s st :
  completion_of (run remote (handleTransform st) h s) = Returned tt.
Proof.
  handler_cases remote h s st; reflexivity.
Qed.

(** X7. With an image loaded, [handleTransform] ends with the processing
    flag off, whether the adapter was reached or not and however its
    request settled. *)
Theorem handleTransform_clears_processing remote h s st :
  Js.truthy_opt (originalImage st) = true ->
  isProcessing (ui (store_of (run remote (handleTransform st) h s))) = false.
Proof.
  intros Hloaded.
  handler_cases remote h s st; try reflexivity.
  congruence.
Qed.

(** X8. One call of [handleTransform] sends one request when an image is
    loaded and, in outfit mode, the trimmed description is not empty; it
    sends none otherwise. *)
Theorem handleTransform_sends_at_most_one_request remote h s st :
  requests_of (history_of (run remote (handleTransform st) h s))
  = requests_of h ++
    match originalImage st with
    | Some image =>
        if submits st then [handleTransform_request st image s] else []
    | None => []
    end.
Proof.
  handler_cases remote h s st; unfold history_of; simpl.
  - unfold submits. rewrite Hidle. simpl.
    destruct (originalImage st); rewrite app_nil_r; reflexivity.
  - rewrite Himage, requests_of_app. reflexivity.
  - rewrite Himage, requests_of_app. simpl. reflexivity.
  - rewrite Himage, app_nil_r. reflexivity.
Qed.

(** X9. [handleTransform] leaves the service module as it is and, of the
    state of the component, never touches the original image, the selected
    style, the description or the mode. *)
Theorem handleTransform_frame remote h s st :
  service (store_of (run remote (handleTransform st) h s)) = service s
  /\ originalImage (ui (store_of (run remote (handleTransform st) h s)))
     = originalImage (ui s)
  /\ selectedStyle (ui (store_of (run remote (handleTransform st) h s)))
     = selectedStyle (ui s)
  /\ outfitDescription (ui (store_of (run remote (handleTransform st) h s)))
     = outfitDescription (ui s)
  /\ mode (ui (store_of (run remote (handleTransform st) h s))) = mode (ui s).
Proof.
  handler_cases remote h s st; unfold store_of; simpl;
    try destruct (Js.truthy_opt _); repeat split.
Qed.

(** X10. When the request of [handleTransform] is fulfilled with a first
    candidate that holds an inline part, the data URI of the first such
    part becomes the transformed image, the error is cleared, the
    processing flag is off and nothing is written to the console. *)
Theorem handleTransform_shows_first_image
    remote h s st image response pre p post blob :
  originalImage st = Some image ->
  Js.truthy image = true ->
  submits st = true ->
  remote h (handleTransform_request st image s) = Fulfilled response ->
  first_candidate_parts response = pre ++ p :: post ->
  Forall no_inline pre ->
  inlineData p = Some blob ->
  transformedImage (ui (store_of (run remote (handleTransform st) h s)))
  = Some ("data:" +:+ Js.to_template (mimeType blob) +:+ ";base64,"
          +:+ Js.to_template (data blob))
  /\ error (ui (store_of (run remote (handleTransform st) h s))) = None
  /\ isProcessing (ui (store_of (run remote (handleTransform st) h s))) = false
  /\ console_of (history_of (run remote (handleTransform st) h s))
     = console_of h.
Proof.
  intros Himage Htruthy Hsub Hremote Hparts Hpre Hp.
  rewrite (run_handleTransform_submitted remote h s st image Himage Htruthy Hsub).
  cbv zeta. rewrite Hremote, Hparts, (scan_first_inline pre p post blob Hpre Hp).
  unfold store_of, history_of. simpl.
  rewrite console_of_app. simpl. rewrite app_nil_r. repeat split.
Qed.

(** X11. When the request is fulfilled but the first candidate holds no
    inline part, [handleTransform] sets the error that names what failed
    (the style, or the outfit swap), leaves the transformed image as it was
    and writes nothing to the console. *)
Theorem handleTransform_reports_missing_image remote h s st image response :
  originalImage st = Some image ->
  Js.truthy image = true ->
  submits st = true ->
  remote h (handleTransform_request st image s) = Fulfilled response ->
  Forall no_inline (first_candidate_parts response) ->
  error (ui (store_of (run remote (handleTransform st) h s)))
  = Some ("Failed to generate the "
          +:+ match mode st with
              | mode_style => style_key (selectedStyle st)
              | mode_outfit => "outfit swap"
              end
          +:+ ". Please try again.")
  /\ transformedImage (ui (store_of (run remote (handleTransform st) h s)))
     = transformedImage (ui s)
  /\ isProcessing (ui (store_of (run remote (handleTransform st) h s))) = false
  /\ console_of (history_of (run remote (handleTransform st) h s))
     = console_of h.
Proof.
  intros Himage Htruthy Hsub Hremote Hnone.
  rewrite (run_handleTransform_submitted remote h s st image Himage Htruthy Hsub).
  cbv zeta. rewrite Hremote, (scan_without_inline _ Hnone).
  unfold store_of, history_of. simpl.
  rewrite console_of_app. simpl. rewrite app_nil_r. repeat split.
Qed.

(** X12. When the request is rejected, [handleTransform] swallows the
    failure: it returns, sets the general error message, leaves the
    transformed image as it was, and the console gets two lines that carry
    the reason, the adapter's and its own. *)
Theorem handleTransform_swallows_failure remote h s st image reason :
  originalImage st = Some image ->
  Js.truthy image = true ->
  submits st = true ->
  remote h (handleTransform_request st image s) = Rejected reason ->
  completion_of (run remote (handleTransform st) h s) = Returned tt
  /\ error (ui (store_of (run remote (handleTransform st) h s)))
     = Some "An error occurred while processing the image. Please check your connection and try again."
  /\ transformedImage (ui (store_of (run remote (handleTransform st) h s)))
     = transformedImage (ui s)
  /\ isProcessing (ui (store_of (run remote (handleTransform st) h s))) = false
  /\ console_of (history_of (run remote (handleTransform st) h s))
     = console_of h ++
       [ [ArgText (adapter_label (mode st)); ArgError reason];
         [ArgError reason] ].
Proof.
  intros Himage Htruthy Hsub Hremote.
  rewrite (run_handleTransform_submitted remote h s st image Himage Htruthy Hsub).
  cbv zeta. rewrite Hremote.
  unfold store_of, history_of, completion_of. simpl.
  rewrite console_of_app. repeat split.
Qed.

Lemma submitted_requests remote h s st image :
  originalImage st = Some image ->
  Js.truthy image = true ->
  submits st = true ->
  requests_of (history_of (run remote (handleTransform st) h s))
  = requests_of h ++
    [image_request (dataUrl_base64Data image) (dataUrl_mimeType image)
                   (handleTransform_instruction st s)].
Proof.
  intros Himage Htruthy Hsub.
  rewrite (run_handleTransform_submitted remote h s st image Himage Htruthy Hsub).
  cbv zeta. rewrite <- handleTransform_request_shape.
  destruct (remote h _); unfold history_of; simpl;
    rewrite requests_of_app; reflexivity.
Qed.

Lemma truthy_with_separator (prefix rest : string) (c : ascii) :
  Js.truthy (prefix +:+ String c rest) = true.
Proof. destruct prefix; reflexivity. Qed.

(** X13. For an original image of the form
    [data:<type>;<parameters>,<payload>], the request of [handleTransform]
    carries the payload as its bytes and the type as its media type. The
    type is not empty and holds no [;], no [,] and no line terminator; the
    parameters and the payload hold no [,]. *)
Theorem handleTransform_reads_data_url remote h s st m params d :
  m <> EmptyString ->
  occurs ";" m = false ->
  occurs "," m = false ->
  has_line_terminator m = false ->
  occurs "," params = false ->
  occurs "," d = false ->
  originalImage st = Some ("data:" +:+ m +:+ ";" +:+ params +:+ "," +:+ d) ->
  submits st = true ->
  requests_of (history_of (run remote (handleTransform st) h s))
  = requests_of h ++
    [image_request (Some d) m (handleTransform_instruction st s)].
Proof.
  intros Hne Hsemi Hcomma Hline Hparams Hd Himage Hsub.
  rewrite (submitted_requests remote h s st _ Himage eq_refl Hsub).
  destruct (dataUrl_reading m params d Hne Hsemi Hcomma Hline Hparams Hd)
    as [-> ->].
  reflexivity.
Qed.

(** X14. For an original image without a comma the payload is
    [undefined]: the request still goes out, with no bytes in its inline
    part, and with the media type read off the whole string. *)
Theorem handleTransform_without_comma remote h s st image :
  originalImage st = Some image ->
  Js.truthy image = true ->
  occurs "," image = false ->
  submits st = true ->
  requests_of (history_of (run remote (handleTransform st) h s))
  = requests_of h ++
    [image_request None (Js.or_else (Js.matchMime image) "image/png")
                   (handleTransform_instruction st s)].
Proof.
  intros Himage Htruthy Hcomma Hsub.
  rewrite (submitted_requests remote h s st _ Himage Htruthy Hsub).
  unfold dataUrl_base64Data, dataUrl_mimeType.
  rewrite (split_without_separator _ _ Hcomma). reflexivity.
Qed.

(** X15. When the text before the first comma of the original image holds
    no colon, or declares an empty type ([data:;...]), the request of
    [handleTransform] declares the media type [image/png]; its bytes are
    the text between the first comma and the next. *)
Theorem handleTransform_defaults_to_png remote h s st prefix rest :
  occurs "," prefix = false ->
  occurs ":" prefix = false
  \/ (exists params, prefix = "data:;" +:+ params) ->
  originalImage st = Some (prefix +:+ "," +:+ rest) ->
  submits st = true ->
  requests_of (history_of (run remote (handleTransform st) h s))
  = requests_of h ++
    [image_request (Js.split "," rest !! 0%nat) "image/png"
                   (handleTransform_instruction st s)].
Proof.
  intros Hcomma Hprefix Himage Hsub.
  change ("," +:+ rest) with (String "," rest) in Himage.
  rewrite (submitted_requests remote h s st _ Himage
             (truthy_with_separator _ _ _) Hsub).
  unfold dataUrl_base64Data, dataUrl_mimeType.
  rewrite (split_at_first_separator _ _ _ Hcomma). simpl hd.
  assert (Js.or_else (Js.matchMime prefix) "image/png" = "image/png") as ->.
  { destruct Hprefix as [Hcolon | [params ->]].
    - rewrite (matchMime_without_colon _ Hcolon). reflexivity.
    - reflexivity. }
  reflexivity.
Qed.

(** X16. [STYLES] lists every style once: [STYLES.find] on the selected
    style always finds an entry, the only one with that id, and the style
    it names has an instruction in the Prompt Catalog. *)
Theorem every_style_is_listed_once (style : ArtisticStyle) :
  List.map entry_id STYLES = all_styles
  /\ exists entry,
      STYLES_find style = Some entry
      /\ entry_id entry = style
      /\ (forall other,
            In other STYLES -> entry_id other = style -> other = entry)
      /\ is_Some (prompt_of style).
Proof.
  split; [reflexivity|].
  destruct (prompt_of_defined style) as (prompt & Hget & _).
  destruct style; eexists;
    (split; [reflexivity|]; split; [reflexivity|];
     split; [|rewrite Hget; eexists; reflexivity]);
    intros other Hin Hid; simpl in Hin;
    repeat (destruct Hin as [<- | Hin]; [first [reflexivity | discriminate Hid]|]);
    destruct Hin.
Qed.

(** X17. The page shows an enabled control that calls [handleTransform]
    exactly when an image is loaded and the processing flag is off. *)
Theorem transform_offered_iff_idle_with_image st :
  offers_transform (App_render st)
  = Js.truthy_opt (originalImage st) && negb (isProcessing st).
Proof.
  unfold offers_transform, App_render, render_panel. simpl.
  destruct (Js.truthy_opt (originalImage st)); simpl; [|reflexivity].
  destruct (Js.truthy_opt (transformedImage st)), (isProcessing st);
    simpl; try reflexivity.
  destruct (Js.truthy_opt (error st)); [reflexivity|].
  destruct (mode st); reflexivity.
Qed.

(** X18. When a call of [handleTransform] made from the current state
    gets no image (its request is rejected, or fulfilled without an inline
    part), an error message is set; the page shows it, with [Try again],
    only when there was no transformed image before; with an earlier
    transformed image the page goes on showing that image. *)
Theorem failure_hidden_behind_previous_result remote h s image :
  originalImage (ui s) = Some image ->
  Js.truthy image = true ->
  submits (ui s) = true ->
  (exists reason,
      remote h (handleTransform_request (ui s) image s) = Rejected reason)
  \/ (exists response,
        remote h (handleTransform_request (ui s) image s) = Fulfilled response
        /\ Forall no_inline (first_candidate_parts response)) ->
  exists message,
    error (ui (store_of (run remote (handleTransform (ui s)) h s)))
    = Some message
    /\ (Js.truthy_opt (transformedImage (ui s)) = false ->
        panel_of (App_render
                    (ui (store_of (run remote (handleTransform (ui s)) h s))))
        = Some (PanelError message))
    /\ (forall previous,
          transformedImage (ui s) = Some previous ->
          Js.truthy previous = true ->
          panel_of (App_render
                      (ui (store_of (run remote (handleTransform (ui s)) h s))))
          = Some (PanelImage previous)).
Proof.
  intros Himage Htruthy Hsub Hfail.
  rewrite (run_handleTransform_submitted remote h s (ui s) image
             Himage Htruthy Hsub).
  cbv zeta.
  destruct Hfail as [[reason ->] | (response & -> & Hnone)].
  - exists thrown_message. unfold store_of, panel_of, App_render, render_panel.
    simpl. rewrite Himage. simpl. rewrite Htruthy. simpl.
    split; [reflexivity|]. split.
    + intros ->. reflexivity.
    + intros previous -> Hprev. simpl. rewrite Hprev. reflexivity.
  - rewrite (scan_without_inline _ Hnone).
    exists (failed_message (ui s)).
    unfold store_of, panel_of, App_render, render_panel.
    simpl. rewrite Himage. simpl. rewrite Htruthy. simpl.
    split; [reflexivity|]. split.
    + intros ->. reflexivity.
    + intros previous -> Hprev. simpl. rewrite Hprev. reflexivity.
Qed.

(** X19. Changing the mode, the style or the description beside a loaded
    image discards the transformed image: nothing can be downloaded, the
    pair of buttons under the result is gone and the result area no longer
    shows an image. *)
Theorem editing_discards_result st m style value edited :
  edited = click_mode m st
  \/ edited = click_style_editor style st
  \/ edited = change_description_editor value st ->
  transformedImage edited = None
  /\ handleDownload edited = None
  /\ originalImage edited = originalImage st
  /\ (forall controls original icon heading panel actions,
        mainView (App_render edited)
        = EditorView controls original icon heading panel actions ->
        actions = None /\ forall src, panel <> PanelImage src).
Proof.
  intros Hedit.
  assert (transformedImage edited = None
          /\ originalImage edited = originalImage st) as [Hnone Horig]
    by (destruct Hedit as [-> | [-> | ->]]; split; reflexivity).
  split; [exact Hnone|]. split; [unfold handleDownload; rewrite Hnone; reflexivity|].
  split; [exact Horig|].
  intros controls original icon heading panel actions Hview.
  unfold App_render in Hview. simpl in Hview.
  destruct (Js.truthy_opt (originalImage edited)); simpl in Hview;
    [|discriminate Hview].
  injection Hview as _ _ _ _ Hpanel Hactions.
  unfold render_panel in Hpanel. rewrite Hnone in Hpanel, Hactions.
  simpl in Hpanel, Hactions. split; [congruence|].
  intros src ->.
  destruct (isProcessing edited); [discriminate Hpanel|].
  destruct (Js.truthy_opt (error edited)); [discriminate Hpanel|].
  destruct (mode edited); discriminate Hpanel.
Qed.

(** X20. [reset] leads back to the upload screen without [Start Over];
    after it nothing can be downloaded and [handleTransform] does nothing;
    the mode, the style, the description and the processing flag are
    kept. *)
Theorem reset_returns_to_upload remote h s st :
  startOver (App_render (reset st)) = false
  /\ panel_of (App_render (reset st)) = None
  /\ handleDownload (reset st) = None
  /\ run remote (handleTransform (reset st)) h s = (h, s, Returned tt)
  /\ mode (reset st) = mode st
  /\ selectedStyle (reset st) = selectedStyle st
  /\ outfitDescription (reset st) = outfitDescription st
  /\ isProcessing (reset st) = isProcessing st.
Proof.
  repeat split.
Qed.

(** X21. In style mode the grid holds the six styles in the order of
    [STYLES] and highlights the selected style and no other. *)
Theorem exactly_one_style_highlighted st :
  mode st = mode_style ->
  exists cells,
    render_controls st = StyleGrid cells
    /\ List.map (fun cell => entry_id (fst cell)) cells = all_styles
    /\ forall entry flag,
         In (entry, flag) cells ->
         flag = true <-> entry_id entry = selectedStyle st.
Proof.
  intros Hmode. unfold render_controls. rewrite Hmode.
  eexists. split; [reflexivity|]. split; [reflexivity|].
  intros entry flag Hin. simpl in Hin.
  repeat (destruct Hin as [Heq | Hin];
          [injection Heq as <- <-; simpl;
           destruct (selectedStyle st); simpl; split; intros H;
           first [reflexivity | discriminate H]|]).
  destruct Hin.
Qed.

(** The files a user drops are of a type of their own. *)
Context {File : Type}.
Implicit Types (readAsDataURL : File -> string).

(** X22. From a dropped file to the download: dropping files loads the
    data URL of the first one and discards any earlier result, so nothing
    can be downloaded yet; when the request [handleTransform] then makes is
    fulfilled with an inline part, the page shows the data URI of the first
    such part and [handleDownload] links to it under the fixed name
    [watercolor-sketch.png]. *)
Theorem upload_transform_download
    remote readAsDataURL h service0 st0 file files response pre p post blob :
  Js.truthy (readAsDataURL file) = true ->
  submits (onDrop readAsDataURL (file :: files) st0) = true ->
  remote h (handleTransform_request
              (onDrop readAsDataURL (file :: files) st0)
              (readAsDataURL file)
              (mkStore service0 (onDrop readAsDataURL (file :: files) st0)))
    = Fulfilled response ->
  first_candidate_parts response = pre ++ p :: post ->
  Forall no_inline pre ->
  inlineData p = Some blob ->
  handleDownload (onDrop readAsDataURL (file :: files) st0) = None
  /\ handleDownload
       (ui (store_of
              (run remote
                 (handleTransform (onDrop readAsDataURL (file :: files) st0))
                 h (mkStore service0
                            (onDrop readAsDataURL (file :: files) st0)))))
     = Some {| href := "data:" +:+ Js.to_template (mimeType blob)
                       +:+ ";base64," +:+ Js.to_template (data blob);
               download := "watercolor-sketch.png" |}
  /\ panel_of
       (App_render
          (ui (store_of
                 (run remote
                    (handleTransform (onDrop readAsDataURL (file :: files) st0))
                    h (mkStore service0
                               (onDrop readAsDataURL (file :: files) st0))))))
     = Some (PanelImage ("data:" +:+ Js.to_template (mimeType blob)
                         +:+ ";base64," +:+ Js.to_template (data blob))).
Proof.
  intros Htruthy Hsub Hremote Hparts Hpre Hp.
  split; [reflexivity|].
  rewrite (run_handleTransform_submitted remote h
             (mkStore service0 (onDrop readAsDataURL (file :: files) st0))
             (onDrop readAsDataURL (file :: files) st0) (readAsDataURL file)
             eq_refl Htruthy Hsub).
  cbv zeta. rewrite Hremote, Hparts, (scan_first_inline pre p post blob Hpre Hp).
  unfold store_of, panel_of, App_render, render_panel, handleDownload. simpl.
  rewrite Htruthy. simpl. split; reflexivity.
Qed.

Lemma perform_keeps_at_rest remote readAsDataURL service0
      (a : Action File) (w : list (Event Exn) * Store) :
  at_rest service0 (snd w) ->
  at_rest service0 (snd (perform remote readAsDataURL a w)).
Proof.
  destruct w as [h s]. unfold at_rest. simpl.
  intros (Hservice & Hflag & Himages).
  destruct a as [files| |m|style|style|value|value|]; simpl;
    try (repeat split; solve [assumption | reflexivity]).
  - unfold onDrop. destruct (files !! 0%nat); simpl; repeat split; auto.
  - handler_cases remote h s (ui s); unfold store_of; simpl;
      try destruct (Js.truthy_opt (transformToArtisticStyle_scan _));
      simpl; repeat split; try assumption;
      rewrite Himage; simpl; rewrite Htruthy; discriminate.
Qed.

Lemma session_keeps_at_rest remote readAsDataURL service0
      (actions : list (Action File)) (w : list (Event Exn) * Store) :
  at_rest service0 (snd w) ->
  at_rest service0 (snd (session remote readAsDataURL actions w)).
Proof.
  revert w. induction actions as [|a actions IH]; intros w Hw; [exact Hw|].
  simpl. apply IH, perform_keeps_at_rest, Hw.
Qed.

Lemma perform_requests remote readAsDataURL
      (a : Action File) (w : list (Event Exn) * Store) :
  length (requests_of (fst (perform remote readAsDataURL a w)))
  <= length (requests_of (fst w)) + (if is_Transform a then 1 else 0).
Proof.
  destruct w as [h s].
  destruct a as [files| |m|style|style|value|value|]; simpl; try lia.
  handler_cases remote h s (ui s); unfold history_of; simpl;
    rewrite ?requests_of_app, ?length_app; simpl; lia.
Qed.

(** X23. Whatever handlers are called from the first render on, and in
    whatever order, one call at a time: between two calls the service
    module is the one that was loaded, the processing flag is off, a
    transformed image is held only beside an original image, and the page
    offers the transformation exactly when an image is loaded. *)
Theorem sessions_stay_at_rest remote readAsDataURL service0
    (actions : list (Action File)) :
  service (snd (session remote readAsDataURL actions
                        ([], mkStore service0 App_initial))) = service0
  /\ isProcessing
       (ui (snd (session remote readAsDataURL actions
                         ([], mkStore service0 App_initial)))) = false
  /\ (Js.truthy_opt
        (originalImage
           (ui (snd (session remote readAsDataURL actions
                             ([], mkStore service0 App_initial))))) = false ->
      transformedImage
        (ui (snd (session remote readAsDataURL actions
                          ([], mkStore service0 App_initial)))) = None)
  /\ offers_transform
       (App_render
          (ui (snd (session remote readAsDataURL actions
                            ([], mkStore service0 App_initial)))))
     = Js.truthy_opt
         (originalImage
            (ui (snd (session remote readAsDataURL actions
                              ([], mkStore service0 App_initial))))).
Proof.
  assert (at_rest service0 (snd (session remote readAsDataURL actions
                                         ([], mkStore service0 App_initial))))
    as (Hservice & Hflag & Himages).
  { apply session_keeps_at_rest. repeat split. }
  split; [exact Hservice|]. split; [exact Hflag|]. split; [exact Himages|].
  unfold offers_transform, App_render, render_panel. simpl.
  rewrite Hflag.
  destruct (Js.truthy_opt (originalImage _)); simpl; [|reflexivity].
  destruct (Js.truthy_opt (transformedImage _)); simpl; [reflexivity|].
  destruct (Js.truthy_opt (error _)); [reflexivity|].
  destruct (mode _); reflexivity.
Qed.

(** X24. A session sends at most one request for each call of
    [handleTransform] in it: no other handler reaches the service. *)
Theorem requests_bounded_by_transform_calls remote readAsDataURL s
    (actions : list (Action File)) :
  length (requests_of (fst (session remote readAsDataURL actions ([], s))))
  <= length (List.filter is_Transform actions).
Proof.
  assert (forall (w : list (Event Exn) * Store),
             length (requests_of
                       (fst (session remote readAsDataURL actions w)))
             <= length (requests_of (fst w))
                + length (List.filter is_Transform actions)) as Hgeneral.
  { induction actions as [|a actions IH]; intros w; simpl; [lia|].
    specialize (IH (perform remote readAsDataURL a w)).
    pose proof (perform_requests remote readAsDataURL a w) as Hstep.
    destruct (is_Transform a); simpl; simpl in IH; lia. }
  exact (Hgeneral ([], s)).
Qed.

End Coverage.

(* ===================================================================== *)
(** ** The further properties at the fixtures *)
(* ===================================================================== *)

(** X1 at the text-only fixture. *)
Lemma text_only_fixture_is_null_both_ways :
  Forall no_inline (first_candidate_parts fixture_text_only)
  /\ completion_of
       (run (remote_answering fixture_text_only)
            (swapOutfit (Some "/9j/4AAQ") "image/jpeg" "a red dress")
            [] fixture_store)
     = Returned None.
Proof.
  destruct (null_exactly_without_inline_part
              (remote_answering fixture_text_only) [] fixture_store
              (Some "/9j/4AAQ") "image/jpeg" oil "a red dress"
              fixture_text_only) as [_ Houtfit].
  destruct (Houtfit eq_refl) as [[_ Hback] _].
  assert (Forall no_inline (first_candidate_parts fixture_text_only)) as Hnone
    by (repeat constructor).
  split; [exact Hnone | exact (Hback Hnone)].
Defined.

(** X2 at a response whose image sits in the second candidate: the result
    is the one of the response cut after its first candidate. *)
Lemma image_in_second_candidate_is_not_found :
  completion_of
    (run (remote_answering fixture_image_in_second_candidate)
         (transformToArtisticStyle (Some "/9j/4AAQ") "image/jpeg" oil)
         [] fixture_store)
  = completion_of
      (run (remote_answering fixture_text_only)
           (transformToArtisticStyle (Some "/9j/4AAQ") "image/jpeg" oil)
           [] fixture_store).
Proof.
  destruct (later_candidates_are_ignored
              (remote_answering fixture_image_in_second_candidate)
              (remote_answering fixture_text_only)
              [] [] fixture_store (Some "/9j/4AAQ") "image/jpeg" oil
              "a red dress"
              (mkCandidate (Some (mkContent (Some
                 [mkPart None (Some "I cannot edit this image.")]))))
              [mkCandidate (Some (mkContent (Some
                 [mkPart (Some (mkBlob (Some "iVBORw0KGgo=") (Some "image/png")))
                         None])))]
              []) as [Hstyle _].
  exact (Hstyle eq_refl eq_refl).
Defined.

(** X3 at the oil and pencil styles. *)
Lemma oil_and_pencil_instructions_differ :
  oil <> pencil /\ prompt_of oil <> prompt_of pencil.
Proof.
  assert (oil <> pencil) as Hne by discriminate.
  split; [exact Hne|].
  exact (proj1 (styles_have_distinct_instructions oil pencil Hne)).
Defined.

(** X5 at the first render, where no image is loaded. *)
Lemma first_render_transform_does_nothing :
  originalImage App_initial = None
  /\ run (remote_answering fixture_text_then_images)
         (handleTransform App_initial) [] fixture_store
     = ([], fixture_store, Returned tt).
Proof.
  split; [reflexivity|].
  exact (handleTransform_without_image
           (remote_answering fixture_text_then_images) [] fixture_store
           App_initial (or_introl eq_refl)).
Defined.

(** X7 at a service that rejects the request. *)
Lemma processing_cleared_after_rejection :
  Js.truthy_opt (originalImage fixture_style_app) = true
  /\ isProcessing
       (ui (store_of
              (run (remote_failing "fetch failed")
                   (handleTransform fixture_style_app) []
                   fixture_style_store)))
     = false.
Proof.
  split; [reflexivity|].
  exact (handleTransform_clears_processing
           (remote_failing "fetch failed") [] fixture_style_store
           fixture_style_app eq_refl).
Defined.

(** X10 at the fixture with a text part before two images. *)
Lemma style_fixture_shows_png :
  transformedImage
    (ui (store_of
           (run (remote_answering fixture_text_then_images)
                (handleTransform fixture_style_app) [] fixture_style_store)))
  = Some "data:image/png;base64,iVBORw0KGgo=".
Proof.
  assert (Forall no_inline [mkPart None (Some "Here is your image.")]) as Hpre
    by (repeat constructor).
  exact (proj1
           (handleTransform_shows_first_image
              (remote_answering fixture_text_then_images) []
              fixture_style_store fixture_style_app
              "data:image/jpeg;base64,/9j/4AAQ" fixture_text_then_images
              [mkPart None (Some "Here is your image.")]
              (mkPart (Some (mkBlob (Some "iVBORw0KGgo=") (Some "image/png")))
                      None)
              [mkPart (Some (mkBlob (Some "/9j/4AAQ") (Some "image/jpeg"))) None]
              (mkBlob (Some "iVBORw0KGgo=") (Some "image/png"))
              eq_refl eq_refl eq_refl eq_refl eq_refl Hpre eq_refl)).
Defined.

(** X11 at the text-only fixture, in style mode. *)
Lemma style_fixture_reports_oil_failed :
  error
    (ui (store_of
           (run (remote_answering fixture_text_only)
                (handleTransform fixture_style_app) [] fixture_style_store)))
  = Some "Failed to generate the oil. Please try again.".
Proof.
  assert (Forall no_inline (first_candidate_parts fixture_text_only)) as Hnone
    by (repeat constructor).
  exact (proj1
           (handleTransform_reports_missing_image
              (remote_answering fixture_text_only) [] fixture_style_store
              fixture_style_app "data:image/jpeg;base64,/9j/4AAQ"
              fixture_text_only eq_refl eq_refl eq_refl eq_refl Hnone)).
Defined.

(** X12 at a service that rejects the request. *)
Lemma style_fixture_swallows_rejection :
  completion_of
    (run (remote_failing "fetch failed")
         (handleTransform fixture_style_app) [] fixture_style_store)
  = Returned tt
  /\ console_of
       (history_of
          (run (remote_failing "fetch failed")
               (handleTransform fixture_style_app) [] fixture_style_store))
     = [ [ArgText "Error transforming image:"; ArgError "fetch failed"];
         [ArgError "fetch failed"] ].
Proof.
  destruct (handleTransform_swallows_failure
              (remote_failing "fetch failed") [] fixture_style_store
              fixture_style_app "data:image/jpeg;base64,/9j/4AAQ"
              "fetch failed" eq_refl eq_refl eq_refl eq_refl)
    as (Hreturn & _ & _ & _ & Hconsole).
  split; [exact Hreturn | exact Hconsole].
Defined.

(** X13 at a JPEG data URL. *)
Lemma jpeg_data_url_is_read :
  requests_of
    (history_of
       (run (remote_answering fixture_text_only)
            (handleTransform fixture_style_app) [] fixture_style_store))
  = [image_request (Some "/9j/4AAQ") "image/jpeg"
                   (handleTransform_instruction fixture_style_app
                                                fixture_style_store)].
Proof.
  assert ("image/jpeg" <> EmptyString) as Hne by discriminate.
  exact (handleTransform_reads_data_url
           (remote_answering fixture_text_only) [] fixture_style_store
           fixture_style_app "image/jpeg" "base64" "/9j/4AAQ"
           Hne eq_refl eq_refl eq_refl eq_refl eq_refl eq_refl eq_refl).
Defined.

(** X14 at an object URL. *)
Lemma object_url_sends_no_bytes :
  occurs "," "blob:studio/0a1b" = false
  /\ requests_of
       (history_of
          (run (remote_answering fixture_text_only)
               (handleTransform fixture_blob_app) []
               (mkStore (geminiService None) fixture_blob_app)))
     = [image_request None "image/png" (prompt_of pencil)].
Proof.
  split; [reflexivity|].
  exact (handleTransform_without_comma
           (remote_answering fixture_text_only) []
           (mkStore (geminiService None) fixture_blob_app)
           fixture_blob_app "blob:studio/0a1b"
           eq_refl eq_refl eq_refl eq_refl).
Defined.

(** X15 at a data URL that declares no media type. *)
Lemma untyped_data_url_is_sent_as_png :
  requests_of
    (history_of
       (run (remote_answering fixture_text_only)
            (handleTransform fixture_untyped_app) []
            (mkStore (geminiService None) fixture_untyped_app)))
  = [image_request (Some "AAAA") "image/png"
       (Some (outfit_template_head +:+ "a red dress" +:+ outfit_template_tail))].
Proof.
  exact (handleTransform_defaults_to_png
           (remote_answering fixture_text_only) []
           (mkStore (geminiService None) fixture_untyped_app)
           fixture_untyped_app "data:;base64" "AAAA"
           eq_refl (or_intror (ex_intro _ "base64" eq_refl))
           eq_refl eq_refl).
Defined.

(** X18 at a rejected request with an earlier result on display. *)
Lemma rejection_leaves_old_image_on_display :
  panel_of
    (App_render
       (ui (store_of
              (run (remote_failing "fetch failed")
                   (handleTransform (ui fixture_style_store)) []
                   fixture_style_store))))
  = Some (PanelImage "data:image/png;base64,T0xE").
Proof.
  destruct (failure_hidden_behind_previous_result
              (remote_failing "fetch failed") [] fixture_style_store
              "data:image/jpeg;base64,/9j/4AAQ" eq_refl eq_refl eq_refl
              (or_introl (ex_intro _ "fetch failed" eq_refl)))
    as (message & _ & _ & Hshown).
  exact (Hshown "data:image/png;base64,T0xE" eq_refl eq_refl).
Defined.

(** X19 at a switch to the outfit mode. *)
Lemma switching_mode_discards_result :
  transformedImage fixture_style_app = Some "data:image/png;base64,T0xE"
  /\ handleDownload (click_mode mode_outfit fixture_style_app) = None.
Proof.
  split; [reflexivity|].
  destruct (editing_discards_result
              fixture_style_app mode_outfit oil EmptyString
              (click_mode mode_outfit fixture_style_app)
              (or_introl eq_refl)) as (_ & Hdownload & _).
  exact Hdownload.
Defined.

(** X21 at the oil style. *)
Lemma oil_is_the_highlighted_style :
  mode fixture_style_app = mode_style
  /\ exists cells,
      render_controls fixture_style_app = StyleGrid cells
      /\ List.map (fun cell => entry_id (fst cell)) cells = all_styles.
Proof.
  split; [reflexivity|].
  destruct (exactly_one_style_highlighted fixture_style_app eq_refl)
    as (cells & Hgrid & Horder & _).
  exists cells. split; [exact Hgrid | exact Horder].
Defined.

(** X22 at two dropped files: the first, a WebP, is the one that is sent
    and the PNG of the response is the one that is downloaded. *)
Lemma dropped_webp_is_downloaded_as_png :
  handleDownload
    (ui (store_of
           (run (remote_answering fixture_text_then_images)
                (handleTransform
                   (onDrop fixture_readAsDataURL fixture_files App_initial))
                []
                (mkStore (geminiService (Some "test-key"))
                   (onDrop fixture_readAsDataURL fixture_files App_initial)))))
  = Some {| href := "data:image/png;base64,iVBORw0KGgo=";
            download := "watercolor-sketch.png" |}.
Proof.
  assert (Forall no_inline [mkPart None (Some "Here is your image.")]) as Hpre
    by (repeat constructor).
  destruct (upload_transform_download
              (remote_answering fixture_text_then_images)
              fixture_readAsDataURL [] (geminiService (Some "test-key"))
              App_initial
              (mkFixtureFile "image/webp" "UklGRg==")
              [mkFixtureFile "image/gif" "R0lG"]
              fixture_text_then_images
              [mkPart None (Some "Here is your image.")]
              (mkPart (Some (mkBlob (Some "iVBORw0KGgo=") (Some "image/png")))
                      None)
              [mkPart (Some (mkBlob (Some "/9j/4AAQ") (Some "image/jpeg"))) None]
              (mkBlob (Some "iVBORw0KGgo=") (Some "image/png"))
              eq_refl eq_refl eq_refl eq_refl Hpre eq_refl)
    as (_ & Hdownload & _).
  exact Hdownload.
Defined.
